(** * TEA trial balance to GASB statements: classification and aggregation

  A shallow embedding of the account-code classifier
  ([mapping_rules.py]) and of the statement aggregator and audit-trail
  helpers ([main.py]), followed by the properties of the written
  specification that concern them.

  Conventions of the embedding.
  - Python [str] values are [string]s; the account codes of the system
    are ASCII, and [len], slicing, [startswith], [in], [isdigit] and
    [lower] are given their ASCII meaning.
  - Monetary amounts are exact rationals ([Q]).  Every equation below
    that relates amounts is either an equality of the very same
    expression the code evaluates, or says that a line item is left
    untouched; no law of arithmetic is used to identify two amounts.
  - A Python [dict] whose iteration order is observable (the mapping,
    the static category tables) is an association list in insertion
    order; lookup returns the first binding of a key.
  - The nested statement dictionaries have a fixed shape; a statement is
    a record whose [leaf] component gives the amount stored at each leaf
    line item, named after its path in the dictionary. *)

From Stdlib Require Import String Ascii List Bool Arith ZArith QArith Qabs Lia.
Import ListNotations.
Close Scope Q_scope.
Open Scope string_scope.

(** ** Python string and dictionary primitives *)

Module Py.

(** [s[i:j]]: slicing clamps to the length of [s] and never raises. *)
Definition slice (s : string) (i j : nat) : string := substring i (j - i) s.

(** [s[i]]: [None] stands for [IndexError]. *)
Definition item (s : string) (i : nat) : option string :=
  match get i s with
  | Some c => Some (String c EmptyString)
  | None => None
  end.

(** [s.startswith(p)]. *)
Definition startswith (s p : string) : bool := prefix p s.

(** [s.startswith((p1, ..., pn))]. *)
Definition startswith_any (s : string) (ps : list string) : bool :=
  existsb (startswith s) ps.

(** [x in l] for a list (or dictionary key view) of strings. *)
Definition mem (x : string) (l : list string) : bool :=
  existsb (String.eqb x) l.

(** [sub in s] for strings. *)
Fixpoint contains (sub s : string) : bool :=
  prefix sub s ||
  match s with
  | EmptyString => false
  | String _ s' => contains sub s'
  end.

Definition is_digit (c : ascii) : bool :=
  let n := nat_of_ascii c in Nat.leb 48 n && Nat.leb n 57.

Fixpoint all_digits (s : string) : bool :=
  match s with
  | EmptyString => true
  | String c s' => is_digit c && all_digits s'
  end.

(** [s.isdigit()]: false on the empty string. *)
Definition isdigit (s : string) : bool :=
  match s with
  | EmptyString => false
  | _ => all_digits s
  end.

Definition lower_char (c : ascii) : ascii :=
  let n := nat_of_ascii c in
  if Nat.leb 65 n && Nat.leb n 90 then ascii_of_nat (n + 32) else c.

(** [s.lower()]. *)
Fixpoint lower (s : string) : string :=
  match s with
  | EmptyString => EmptyString
  | String c s' => String (lower_char c) (lower s')
  end.

(** [s.replace(a, b)] for single characters [a] and [b]. *)
Fixpoint replace_char (a b : ascii) (s : string) : string :=
  match s with
  | EmptyString => EmptyString
  | String c s' => String (if Ascii.eqb c a then b else c) (replace_char a b s')
  end.

(** [d.get(k)] on a dictionary in insertion order; [k in d] holds
    exactly when the result is not [None]. *)
Fixpoint lookup {V : Type} (k : string) (d : list (string * V)) : option V :=
  match d with
  | [] => None
  | (k', v) :: d' => if String.eqb k k' then Some v else lookup k d'
  end.

(** [d.get(k, default)]. *)
Definition get_default {V : Type} (d : list (string * V)) (k : string) (default : V) : V :=
  match lookup k d with
  | Some v => v
  | None => default
  end.

End Py.

(** ** mapping_rules.py *)

Module MappingRules.
Import Py.

Definition TEA_OBJECT_CATEGORIES : list (string * string) :=
  [ ("1", "Assets");
    ("2", "Liabilities");
    ("3", "Fund Balances/Net Position");
    ("4", "Clearing Accounts");
    ("5", "Revenues");
    ("6", "Expenditures/Expenses");
    ("7", "Other Resources/Non-operating Revenues");
    ("8", "Other Uses/Non-operating Expenses") ].

Record gasb_details := { gasb_description : string; tea_codes : list string }.

Record fund_details := { fund_description : string; fund_codes : list string }.

Definition GASB_CATEGORIES : list (string * gasb_details) :=
[
  ("current_assets", {| gasb_description := "Current Assets";
     tea_codes := [
       "1110"; "1120"; "1130"; "1140"; "1150"; "1160"; "1170"; "1180"; "1190"; "1210";
       "1220"; "1225"; "1230"; "1240"; "1250"; "1260"; "1267"; "1270"; "1280"; "1290";
       "1300"; "1310"; "1320"; "1330"; "1340"; "1350"; "1360"; "1370"; "1380"; "1390";
       "1410"; "1420"; "1430"; "1440"; "1450"; "1460"; "1470"; "1480"; "1490"] |});
  ("capital_assets", {| gasb_description := "Capital Assets";
     tea_codes := [
       "1510"; "1520"; "1530"; "1540"; "1550"; "1560"; "1570"; "1580"; "1590"] |});
  ("deferred_outflows", {| gasb_description := "Deferred Outflows of Resources";
     tea_codes := [
       "1700"; "1701"; "1702"; "1703"; "1704"; "1705"; "1706"; "1707"; "1708"; "1709"] |});
  ("current_liabilities", {| gasb_description := "Current Liabilities";
     tea_codes := [
       "2110"; "2120"; "2130"; "2140"; "2150"; "2160"; "2165"; "2170"; "2180"; "2190";
       "2210"; "2220"; "2230"; "2240"; "2250"; "2260"; "2270"; "2280"; "2290"; "2300";
       "2310"; "2320"; "2330"; "2340"; "2350"; "2360"; "2370"; "2380"; "2390"] |});
  ("long_term_liabilities", {| gasb_description := "Long-term Liabilities";
     tea_codes := [
       "2410"; "2420"; "2430"; "2440"; "2450"; "2460"; "2470"; "2480"; "2490"; "2501";
       "2502"; "2510"; "2520"; "2530"; "2540"; "2545"; "2550"; "2560"; "2570"; "2580";
       "2590"] |});
  ("deferred_inflows", {| gasb_description := "Deferred Inflows of Resources";
     tea_codes := [
       "2600"; "2601"; "2602"; "2603"; "2604"; "2605"; "2606"; "2607"; "2608"; "2609"] |});
  ("net_investment_capital_assets", {| gasb_description := "Net Investment in Capital Assets";
     tea_codes := [
       "3200"; "3210"; "3220"; "3230"; "3240"; "3250"; "3260"; "3270"; "3280"; "3290"] |});
  ("restricted_net_position", {| gasb_description := "Restricted Net Position";
     tea_codes := [
       "3300"; "3310"; "3320"; "3330"; "3340"; "3350"; "3360"; "3370"; "3380"; "3390";
       "3400"; "3410"; "3420"; "3430"; "3440"; "3450"; "3460"; "3470"; "3480"; "3490";
       "3500"; "3510"; "3520"; "3530"; "3540"; "3550"; "3560"; "3570"; "3580"; "3590";
       "3600"; "3610"; "3620"; "3630"; "3640"; "3650"; "3660"; "3670"; "3680"; "3690";
       "3700"; "3710"; "3720"; "3730"; "3740"; "3750"; "3760"; "3770"; "3780"; "3790";
       "3800"; "3810"; "3820"; "3830"; "3840"; "3850"; "3860"; "3870"; "3880"; "3890"] |});
  ("unrestricted_net_position", {| gasb_description := "Unrestricted Net Position";
     tea_codes := [
       "3900"; "3910"; "3920"; "3930"; "3940"; "3950"; "3960"; "3970"; "3980"; "3990"] |});
  ("program_revenues", {| gasb_description := "Program Revenues";
     tea_codes := [
       "5100"; "5110"; "5120"; "5130"; "5140"; "5150"; "5160"; "5170"; "5180"; "5190";
       "5200"; "5210"; "5220"; "5230"; "5240"; "5250"; "5260"; "5270"; "5280"; "5290";
       "5300"; "5310"; "5320"; "5330"; "5340"; "5350"; "5360"; "5370"; "5380"; "5390"] |});
  ("general_revenues", {| gasb_description := "General Revenues";
     tea_codes := [
       "5400"; "5410"; "5420"; "5430"; "5440"; "5450"; "5460"; "5470"; "5480"; "5490";
       "5500"; "5510"; "5520"; "5530"; "5540"; "5550"; "5560"; "5570"; "5580"; "5590";
       "5600"; "5610"; "5620"; "5630"; "5640"; "5650"; "5660"; "5670"; "5680"; "5690";
       "5700"; "5710"; "5720"; "5730"; "5740"; "5750"; "5760"; "5770"; "5780"; "5790";
       "5800"; "5810"; "5820"; "5830"; "5840"; "5850"; "5860"; "5870"; "5880"; "5890";
       "5900"; "5910"; "5920"; "5930"; "5940"; "5950"; "5960"; "5970"; "5980"; "5990"] |});
  ("program_expenses", {| gasb_description := "Program Expenses";
     tea_codes := [
       "6100"; "6110"; "6120"; "6130"; "6140"; "6150"; "6160"; "6170"; "6180"; "6190";
       "6200"; "6210"; "6220"; "6230"; "6240"; "6250"; "6260"; "6270"; "6280"; "6290";
       "6300"; "6310"; "6320"; "6330"; "6340"; "6350"; "6360"; "6370"; "6380"; "6390";
       "6400"; "6410"; "6420"; "6430"; "6440"; "6450"; "6460"; "6470"; "6480"; "6490";
       "6500"; "6510"; "6520"; "6530"; "6540"; "6550"; "6560"; "6570"; "6580"; "6590"] |});
  ("general_expenses", {| gasb_description := "General Expenses";
     tea_codes := [
       "6600"; "6610"; "6620"; "6630"; "6640"; "6650"; "6660"; "6670"; "6680"; "6690";
       "6700"; "6710"; "6720"; "6730"; "6740"; "6750"; "6760"; "6770"; "6780"; "6790";
       "6800"; "6810"; "6820"; "6830"; "6840"; "6850"; "6860"; "6870"; "6880"; "6890";
       "6900"; "6910"; "6920"; "6930"; "6940"; "6950"; "6960"; "6970"; "6980"; "6990"] |});
  ("other_resources", {| gasb_description := "Other Resources & Non-operating Revenues";
     tea_codes := [
       "7000"; "7010"; "7020"; "7030"; "7040"; "7050"; "7060"; "7070"; "7080"; "7090";
       "7100"; "7110"; "7120"; "7130"; "7140"; "7150"; "7160"; "7170"; "7180"; "7190";
       "7200"; "7210"; "7220"; "7230"; "7240"; "7250"; "7260"; "7270"; "7280"; "7290";
       "7300"; "7310"; "7320"; "7330"; "7340"; "7350"; "7360"; "7370"; "7380"; "7390";
       "7400"; "7410"; "7420"; "7430"; "7440"; "7450"; "7460"; "7470"; "7480"; "7490";
       "7500"; "7510"; "7520"; "7530"; "7540"; "7550"; "7560"; "7570"; "7580"; "7590";
       "7600"; "7610"; "7620"; "7630"; "7640"; "7650"; "7660"; "7670"; "7680"; "7690";
       "7700"; "7710"; "7720"; "7730"; "7740"; "7750"; "7760"; "7770"; "7780"; "7790";
       "7800"; "7810"; "7820"; "7830"; "7840"; "7850"; "7860"; "7870"; "7880"; "7890";
       "7900"; "7910"; "7915"; "7920"; "7930"; "7940"; "7950"; "7960"; "7970"; "7980";
       "7990"] |});
  ("other_uses", {| gasb_description := "Other Uses & Non-operating Expenses";
     tea_codes := [
       "8000"; "8010"; "8020"; "8030"; "8040"; "8050"; "8060"; "8070"; "8080"; "8090";
       "8100"; "8110"; "8120"; "8130"; "8140"; "8150"; "8160"; "8170"; "8180"; "8190";
       "8200"; "8210"; "8220"; "8230"; "8240"; "8250"; "8260"; "8270"; "8280"; "8290";
       "8300"; "8310"; "8320"; "8330"; "8340"; "8350"; "8360"; "8370"; "8380"; "8390";
       "8400"; "8410"; "8420"; "8430"; "8440"; "8450"; "8460"; "8470"; "8480"; "8490";
       "8500"; "8510"; "8520"; "8530"; "8540"; "8550"; "8560"; "8570"; "8580"; "8590";
       "8600"; "8610"; "8620"; "8630"; "8640"; "8650"; "8660"; "8670"; "8680"; "8690";
       "8700"; "8710"; "8720"; "8730"; "8740"; "8750"; "8760"; "8770"; "8780"; "8790";
       "8800"; "8810"; "8820"; "8830"; "8840"; "8850"; "8860"; "8870"; "8880"; "8890";
       "8900"; "8910"; "8920"; "8930"; "8940"; "8950"; "8960"; "8970"; "8980"; "8990"] |});
  ("clearing_accounts", {| gasb_description := "Clearing Accounts";
     tea_codes := [
       "4000"; "4010"; "4020"; "4030"; "4040"; "4050"; "4060"; "4070"; "4080"; "4090";
       "4100"; "4110"; "4120"; "4130"; "4140"; "4150"; "4160"; "4170"; "4180"; "4190";
       "4200"; "4210"; "4220"; "4230"; "4240"; "4250"; "4260"; "4270"; "4280"; "4290";
       "4300"; "4310"; "4320"; "4330"; "4340"; "4350"; "4360"; "4370"; "4380"; "4390";
       "4400"; "4410"; "4420"; "4430"; "4440"; "4450"; "4460"; "4470"; "4480"; "4490";
       "4500"; "4510"; "4520"; "4530"; "4540"; "4550"; "4560"; "4570"; "4580"; "4590";
       "4600"; "4610"; "4620"; "4630"; "4640"; "4650"; "4660"; "4670"; "4680"; "4690";
       "4700"; "4710"; "4720"; "4730"; "4740"; "4750"; "4760"; "4770"; "4780"; "4790";
       "4800"; "4810"; "4820"; "4830"; "4840"; "4850"; "4860"; "4870"; "4880"; "4890";
       "4900"; "4910"; "4920"; "4930"; "4940"; "4950"; "4960"; "4970"; "4980"; "4990"] |})
].
Definition FUND_CATEGORIES : list (string * fund_details) :=
[
  ("general_fund", {| fund_description := "General Fund";
     fund_codes := [
       "100"; "101"; "102"; "103"; "104"; "105"; "106"; "107"; "108"; "109";
       "110"; "111"; "112"; "113"; "114"; "115"; "116"; "117"; "118"; "119";
       "120"; "121"; "122"; "123"; "124"; "125"; "126"; "127"; "128"; "129";
       "130"; "131"; "132"; "133"; "134"; "135"; "136"; "137"; "138"; "139";
       "140"; "141"; "142"; "143"; "144"; "145"; "146"; "147"; "148"; "149";
       "150"; "151"; "152"; "153"; "154"; "155"; "156"; "157"; "158"; "159";
       "160"; "161"; "162"; "163"; "164"; "165"; "166"; "167"; "168"; "169";
       "170"; "171"; "172"; "173"; "174"; "175"; "176"; "177"; "178"; "179";
       "180"; "181"; "182"; "183"; "184"; "185"; "186"; "187"; "188"; "189";
       "190"; "191"; "192"; "193"; "194"; "195"; "196"; "197"; "198"; "199"] |});
  ("special_revenue_funds", {| fund_description := "Special Revenue Funds";
     fund_codes := [
       "200"; "201"; "202"; "203"; "204"; "205"; "206"; "207"; "208"; "209";
       "210"; "211"; "212"; "213"; "214"; "215"; "216"; "217"; "218"; "219";
       "220"; "221"; "222"; "223"; "224"; "225"; "226"; "227"; "228"; "229";
       "230"; "231"; "232"; "233"; "234"; "235"; "236"; "237"; "238"; "239";
       "240"; "241"; "242"; "243"; "244"; "245"; "246"; "247"; "248"; "249";
       "250"; "251"; "252"; "253"; "254"; "255"; "256"; "257"; "258"; "259";
       "260"; "261"; "262"; "263"; "264"; "265"; "266"; "267"; "268"; "269";
       "270"; "271"; "272"; "273"; "274"; "275"; "276"; "277"; "278"; "279";
       "280"; "281"; "282"; "283"; "284"; "285"; "286"; "287"; "288"; "289";
       "290"; "291"; "292"; "293"; "294"; "295"; "296"; "297"; "298"; "299"] |});
  ("enterprise_funds", {| fund_description := "Enterprise Funds";
     fund_codes := [
       "300"; "301"; "302"; "303"; "304"; "305"; "306"; "307"; "308"; "309";
       "310"; "311"; "312"; "313"; "314"; "315"; "316"; "317"; "318"; "319";
       "320"; "321"; "322"; "323"; "324"; "325"; "326"; "327"; "328"; "329";
       "330"; "331"; "332"; "333"; "334"; "335"; "336"; "337"; "338"; "339";
       "340"; "341"; "342"; "343"; "344"; "345"; "346"; "347"; "348"; "349";
       "350"; "351"; "352"; "353"; "354"; "355"; "356"; "357"; "358"; "359";
       "360"; "361"; "362"; "363"; "364"; "365"; "366"; "367"; "368"; "369";
       "370"; "371"; "372"; "373"; "374"; "375"; "376"; "377"; "378"; "379";
       "380"; "381"; "382"; "383"; "384"; "385"; "386"; "387"; "388"; "389";
       "390"; "391"; "392"; "393"; "394"; "395"; "396"; "397"; "398"; "399"] |});
  ("internal_service_funds", {| fund_description := "Internal Service Funds";
     fund_codes := [
       "400"; "401"; "402"; "403"; "404"; "405"; "406"; "407"; "408"; "409";
       "410"; "411"; "412"; "413"; "414"; "415"; "416"; "417"; "418"; "419";
       "420"; "421"; "422"; "423"; "424"; "425"; "426"; "427"; "428"; "429";
       "430"; "431"; "432"; "433"; "434"; "435"; "436"; "437"; "438"; "439";
       "440"; "441"; "442"; "443"; "444"; "445"; "446"; "447"; "448"; "449";
       "450"; "451"; "452"; "453"; "454"; "455"; "456"; "457"; "458"; "459";
       "460"; "461"; "462"; "463"; "464"; "465"; "466"; "467"; "468"; "469";
       "470"; "471"; "472"; "473"; "474"; "475"; "476"; "477"; "478"; "479";
       "480"; "481"; "482"; "483"; "484"; "485"; "486"; "487"; "488"; "489";
       "490"; "491"; "492"; "493"; "494"; "495"; "496"; "497"; "498"; "499"] |});
  ("debt_service_funds", {| fund_description := "Debt Service Funds";
     fund_codes := [
       "500"; "501"; "502"; "503"; "504"; "505"; "506"; "507"; "508"; "509";
       "510"; "511"; "512"; "513"; "514"; "515"; "516"; "517"; "518"; "519";
       "520"; "521"; "522"; "523"; "524"; "525"; "526"; "527"; "528"; "529";
       "530"; "531"; "532"; "533"; "534"; "535"; "536"; "537"; "538"; "539";
       "540"; "541"; "542"; "543"; "544"; "545"; "546"; "547"; "548"; "549";
       "550"; "551"; "552"; "553"; "554"; "555"; "556"; "557"; "558"; "559";
       "560"; "561"; "562"; "563"; "564"; "565"; "566"; "567"; "568"; "569";
       "570"; "571"; "572"; "573"; "574"; "575"; "576"; "577"; "578"; "579";
       "580"; "581"; "582"; "583"; "584"; "585"; "586"; "587"; "588"; "589";
       "590"; "591"; "592"; "593"; "594"; "595"; "596"; "597"; "598"; "599"] |});
  ("capital_projects_funds", {| fund_description := "Capital Projects Funds";
     fund_codes := [
       "600"; "601"; "602"; "603"; "604"; "605"; "606"; "607"; "608"; "609";
       "610"; "611"; "612"; "613"; "614"; "615"; "616"; "617"; "618"; "619";
       "620"; "621"; "622"; "623"; "624"; "625"; "626"; "627"; "628"; "629";
       "630"; "631"; "632"; "633"; "634"; "635"; "636"; "637"; "638"; "639";
       "640"; "641"; "642"; "643"; "644"; "645"; "646"; "647"; "648"; "649";
       "650"; "651"; "652"; "653"; "654"; "655"; "656"; "657"; "658"; "659";
       "660"; "661"; "662"; "663"; "664"; "665"; "666"; "667"; "668"; "669";
       "670"; "671"; "672"; "673"; "674"; "675"; "676"; "677"; "678"; "679";
       "680"; "681"; "682"; "683"; "684"; "685"; "686"; "687"; "688"; "689";
       "690"; "691"; "692"; "693"; "694"; "695"; "696"; "697"; "698"; "699"] |});
  ("permanent_funds", {| fund_description := "Permanent Funds";
     fund_codes := [
       "700"; "701"; "702"; "703"; "704"; "705"; "706"; "707"; "708"; "709";
       "710"; "711"; "712"; "713"; "714"; "715"; "716"; "717"; "718"; "719";
       "720"; "721"; "722"; "723"; "724"; "725"; "726"; "727"; "728"; "729";
       "730"; "731"; "732"; "733"; "734"; "735"; "736"; "737"; "738"; "739";
       "740"; "741"; "742"; "743"; "744"; "745"; "746"; "747"; "748"; "749";
       "750"; "751"; "752"; "753"; "754"; "755"; "756"; "757"; "758"; "759";
       "760"; "761"; "762"; "763"; "764"; "765"; "766"; "767"; "768"; "769";
       "770"; "771"; "772"; "773"; "774"; "775"; "776"; "777"; "778"; "779";
       "780"; "781"; "782"; "783"; "784"; "785"; "786"; "787"; "788"; "789";
       "790"; "791"; "792"; "793"; "794"; "795"; "796"; "797"; "798"; "799"] |});
  ("fiduciary_funds", {| fund_description := "Fiduciary Funds";
     fund_codes := [
       "800"; "801"; "802"; "803"; "804"; "805"; "806"; "807"; "808"; "809";
       "810"; "811"; "812"; "813"; "814"; "815"; "816"; "817"; "818"; "819";
       "820"; "821"; "822"; "823"; "824"; "825"; "826"; "827"; "828"; "829";
       "830"; "831"; "832"; "833"; "834"; "835"; "836"; "837"; "838"; "839";
       "840"; "841"; "842"; "843"; "844"; "845"; "846"; "847"; "848"; "849";
       "850"; "851"; "852"; "853"; "854"; "855"; "856"; "857"; "858"; "859";
       "860"; "861"; "862"; "863"; "864"; "865"; "866"; "867"; "868"; "869";
       "870"; "871"; "872"; "873"; "874"; "875"; "876"; "877"; "878"; "879";
       "880"; "881"; "882"; "883"; "884"; "885"; "886"; "887"; "888"; "889";
       "890"; "891"; "892"; "893"; "894"; "895"; "896"; "897"; "898"; "899"] |})
].

(** [None] stands for the [IndexError] that [account_code[5]] would
    raise on a code of fewer than six characters. *)
Definition get_tea_category (account_code : string) : option string :=
  if Nat.leb 9 (String.length account_code) then
    match item account_code 5 with
    | Some first_digit => Some (get_default TEA_OBJECT_CATEGORIES first_digit "Unknown")
    | None => None
    end
  else Some "Unknown".

(** First category, in declaration order, whose code list holds the key. *)
Definition first_category {D : Type} (codes : D -> list string)
    (table : list (string * D)) (key : string) : option string :=
  match find (fun entry => mem key (codes (snd entry))) table with
  | Some (category, _) => Some category
  | None => None
  end.

Definition get_gasb_category (account_code : string) : string :=
  if Nat.leb 9 (String.length account_code) then
    let object_code := slice account_code 5 9 in
    match first_category tea_codes GASB_CATEGORIES object_code with
    | Some category => category
    | None =>
      if startswith object_code "1" then
        if startswith_any object_code ["11"; "12"; "13"; "14"] then "current_assets"
        else if startswith object_code "15" then "capital_assets"
        else if startswith object_code "17" then "deferred_outflows"
        else "current_assets"
      else if startswith object_code "2" then
        if startswith_any object_code ["21"; "22"; "23"] then "current_liabilities"
        else if startswith_any object_code ["24"; "25"] then "long_term_liabilities"
        else if startswith object_code "26" then "deferred_inflows"
        else "current_liabilities"
      else if startswith object_code "3" then
        if startswith object_code "32" then "net_investment_capital_assets"
        else if startswith_any object_code ["33"; "34"; "35"; "36"; "37"; "38"]
             then "restricted_net_position"
        else if startswith object_code "39" then "unrestricted_net_position"
        else "restricted_net_position"
      else if startswith object_code "5" then
        if startswith_any object_code ["51"; "52"; "53"] then "program_revenues"
        else "general_revenues"
      else if startswith object_code "6" then
        if startswith_any object_code ["61"; "62"; "63"; "64"; "65"] then "program_expenses"
        else "general_expenses"
      else if startswith object_code "7" then "other_resources"
      else if startswith object_code "8" then "other_uses"
      else "unknown"
    end
  else "unknown".

Definition get_fund_category (account_code : string) : string :=
  if Nat.leb 3 (String.length account_code) then
    let fund_code := slice account_code 0 3 in
    match first_category fund_codes FUND_CATEGORIES fund_code with
    | Some category => category
    | None =>
      if startswith fund_code "1" then "general_fund"
      else if startswith fund_code "2" then "special_revenue_funds"
      else if startswith fund_code "5" then "debt_service_funds"
      else if startswith fund_code "6" then "capital_projects_funds"
      else if startswith fund_code "7" then "permanent_funds"
      else "other_governmental_funds"
    end
  else "other_governmental_funds".

(** A category mapping entry, with the keys that [create_default_mapping]
    writes and that the mapping store returns. *)
Record MappingEntry := {
  account_code : string;
  description : string;
  tea_category : string;
  gasb_category : string;
  fund_category : string;
  statement_line : string;
  notes : string
}.

Definition Mapping := list (string * MappingEntry).

(** [validate_account_code]: only the validity flag is used by the
    callers modelled here.  Slicing cannot raise, so the [except] arm of
    the source is unreachable. *)
Definition validate_account_code (account_code : string) : bool :=
  if Nat.ltb (String.length account_code) 9 then false
  else
    let fund_code := slice account_code 0 3 in
    let function_code := slice account_code 3 5 in
    let object_code := slice account_code 5 9 in
    if negb (isdigit fund_code) || negb (isdigit function_code) || negb (isdigit object_code)
    then false
    else true.

Definition essential_categories : list (string * list string) :=
  [ ("assets", ["current_assets"; "capital_assets"]);
    ("liabilities", ["current_liabilities"; "long_term_liabilities"]);
    ("net_position", ["net_investment_capital_assets"; "restricted_net_position";
                      "unrestricted_net_position"]);
    ("revenues", ["program_revenues"; "general_revenues"]);
    ("expenses", ["program_expenses"; "general_expenses"]) ].

Record ValidationResult := {
  valid : bool;
  unmapped_accounts : list string;
  invalid_accounts : list string;
  total_unmapped : nat;
  total_invalid : nat;
  mapped_categories : list string;
  warnings : list string;
  has_essential_categories : bool
}.

(** The three accumulators of the loop of [validate_mapping]. *)
Record ValidationState := {
  st_mapped : list string;
  st_unmapped : list string;
  st_invalid : list string
}.

(** [set.add]: the set is kept as a duplicate-free list. *)
Definition set_add (x : string) (s : list string) : list string :=
  if mem x s then s else (s ++ [x])%list.

Definition validate_step (st : ValidationState) (kv : string * MappingEntry)
    : ValidationState :=
  let '(code, account_mapping) := kv in
  if negb (validate_account_code code) then
    {| st_mapped := st_mapped st; st_unmapped := st_unmapped st;
       st_invalid := (st_invalid st ++ [code])%list |}
  else if negb (String.eqb (gasb_category account_mapping) "")
          && negb (String.eqb (gasb_category account_mapping) "unknown") then
    {| st_mapped := set_add (gasb_category account_mapping) (st_mapped st);
       st_unmapped := st_unmapped st; st_invalid := st_invalid st |}
  else
    {| st_mapped := st_mapped st; st_unmapped := (st_unmapped st ++ [code])%list;
       st_invalid := st_invalid st |}.

Definition warning_for (category_group : string) : string :=
  "No " ++ replace_char "_" " " category_group ++ " categories mapped".

Definition validate_mapping (mapping : Mapping) : ValidationResult :=
  let st := fold_left validate_step mapping
              {| st_mapped := []; st_unmapped := []; st_invalid := [] |} in
  let warnings :=
    flat_map (fun group =>
                if negb (existsb (fun cat => mem cat (st_mapped st)) (snd group))
                then [warning_for (fst group)] else [])
             essential_categories in
  {| valid := Nat.eqb (length (st_unmapped st)) 0 && Nat.eqb (length (st_invalid st)) 0;
     unmapped_accounts := firstn 10 (st_unmapped st);
     invalid_accounts := firstn 10 (st_invalid st);
     total_unmapped := length (st_unmapped st);
     total_invalid := length (st_invalid st);
     mapped_categories := st_mapped st;
     warnings := warnings;
     has_essential_categories := Nat.eqb (length warnings) 0 |}.

End MappingRules.

(** ** main.py: trial balance rows and amounts *)

Module TrialBalance.

(** A row of the trial balance data frame: the account code as a string
    and its [current_year_actual] amount. *)
Record Row := { row_account_code : string; current_year_actual : Q }.

Definition DataFrame := list Row.

(** [x < y] on amounts. *)
Definition Qlt_bool (x y : Q) : bool :=
  (Qnum x * QDen y <? Qnum y * QDen x)%Z.

(** [sum(...)] of Python and of pandas: accumulation from zero, in order. *)
Definition Qsum (l : list Q) : Q := fold_left Qplus l 0%Q.

End TrialBalance.

(** ** main.py: generate_government_wide_net_position *)

Module NetPosition.
Import Py MappingRules TrialBalance.

(** The leaf line items of the statement dictionary.  A constructor is
    named after the last keys of its path: [capital_assets_land] is
    [statement['assets']['capital_assets']['land']]. *)
Inductive leaf :=
| cash_and_cash_equivalents | property_taxes_receivable
| due_from_other_governments | due_from_fiduciary | other_receivables
| inventories | unrealized_expenses
| capital_assets_land | capital_assets_buildings_improvements
| capital_assets_furniture_equipment | capital_assets_construction_in_progress
| deferred_charge_refunding | deferred_outflow_pensions | deferred_outflow_opeb
| accounts_payable | interest_payable | accrued_liabilities
| due_to_other_governments | unearned_revenue
| noncurrent_due_within_one_year | noncurrent_due_more_than_one_year
| noncurrent_net_pension_liability | noncurrent_net_opeb_liability
| deferred_inflow_pensions | deferred_inflow_opeb
| net_investment_capital_assets
| restricted_state_federal_programs | restricted_debt_service
| unrestricted.

Definition leaf_eq_dec (a b : leaf) : {a = b} + {a <> b}.
Proof. decide equality. Defined.

Definition all_leaves : list leaf :=
  [ cash_and_cash_equivalents; property_taxes_receivable;
    due_from_other_governments; due_from_fiduciary; other_receivables;
    inventories; unrealized_expenses;
    capital_assets_land; capital_assets_buildings_improvements;
    capital_assets_furniture_equipment; capital_assets_construction_in_progress;
    deferred_charge_refunding; deferred_outflow_pensions; deferred_outflow_opeb;
    accounts_payable; interest_payable; accrued_liabilities;
    due_to_other_governments; unearned_revenue;
    noncurrent_due_within_one_year; noncurrent_due_more_than_one_year;
    noncurrent_net_pension_liability; noncurrent_net_opeb_liability;
    deferred_inflow_pensions; deferred_inflow_opeb;
    net_investment_capital_assets;
    restricted_state_federal_programs; restricted_debt_service;
    unrestricted ].

(** The ['amount'] stored at every leaf. *)
Definition Amounts := leaf -> Q.

(** The initial statement: every amount is 0. *)
Definition template : Amounts := fun _ => 0%Q.

(** [statement[...][leaf]['amount'] += amount]. *)
Definition add (l : leaf) (amount : Q) (statement : Amounts) : Amounts :=
  fun l' => if leaf_eq_dec l l' then (statement l' + amount)%Q else statement l'.

(** The body of the loop over [df.iterrows()]. *)
Definition process_row (mapping : Mapping) (statement : Amounts) (row : Row) : Amounts :=
  let account_code := row_account_code row in
  let amount := current_year_actual row in
  match lookup account_code mapping with
  | Some account_mapping =>
    let object_code :=
      if Nat.leb 9 (String.length account_code) then slice account_code 5 9 else "0000" in
    if startswith object_code "1" then
      if startswith object_code "11" then add cash_and_cash_equivalents amount statement
      else if startswith object_code "12" then
        if object_code =? "1225" then add property_taxes_receivable amount statement
        else if object_code =? "1240" then add due_from_other_governments amount statement
        else if object_code =? "1267" then add due_from_fiduciary amount statement
        else add other_receivables amount statement
      else if startswith object_code "13" then add inventories amount statement
      else if startswith object_code "14" then add unrealized_expenses amount statement
      else if startswith object_code "15" then
        if object_code =? "1510" then add capital_assets_land amount statement
        else if object_code =? "1520" then
          add capital_assets_buildings_improvements amount statement
        else if object_code =? "1530" then
          add capital_assets_furniture_equipment amount statement
        else if object_code =? "1580" then
          add capital_assets_construction_in_progress amount statement
        else add capital_assets_buildings_improvements amount statement
      else if startswith object_code "17" then
        if object_code =? "1701" then add deferred_charge_refunding amount statement
        else if object_code =? "1705" then add deferred_outflow_pensions amount statement
        else if object_code =? "1706" then add deferred_outflow_opeb amount statement
        else add deferred_charge_refunding amount statement
      else statement
    else if startswith object_code "2" then
      if startswith object_code "21" then
        if object_code =? "2110" then add accounts_payable amount statement
        else if object_code =? "2140" then add interest_payable amount statement
        else if object_code =? "2165" then add accrued_liabilities amount statement
        else if object_code =? "2180" then add due_to_other_governments amount statement
        else if object_code =? "2300" then add unearned_revenue amount statement
        else add accounts_payable amount statement
      else if startswith object_code "25" then
        if object_code =? "2501" then add noncurrent_due_within_one_year amount statement
        else if object_code =? "2502" then
          add noncurrent_due_more_than_one_year amount statement
        else if object_code =? "2540" then
          add noncurrent_net_pension_liability amount statement
        else if object_code =? "2545" then add noncurrent_net_opeb_liability amount statement
        else add noncurrent_due_more_than_one_year amount statement
      else if startswith object_code "26" then
        if object_code =? "2605" then add deferred_inflow_pensions amount statement
        else if object_code =? "2606" then add deferred_inflow_opeb amount statement
        else add deferred_inflow_pensions amount statement
      else statement
    else if startswith object_code "3" then
      if startswith object_code "32" then add net_investment_capital_assets amount statement
      else if startswith object_code "38" then
        if object_code =? "3820" then add restricted_state_federal_programs amount statement
        else if object_code =? "3850" then add restricted_debt_service amount statement
        else add restricted_state_federal_programs amount statement
      else if startswith object_code "39" then add unrestricted amount statement
      else statement
    else statement
  | None => statement
  end.

(** The finished statement: the leaf amounts, the five subtotals and the
    balance validation block. *)
Record Statement := {
  amount : Amounts;
  total_assets : Q;
  total_deferred_outflows : Q;
  total_liabilities : Q;
  total_deferred_inflows : Q;
  total_net_position : Q;
  left_side : Q;
  right_side : Q;
  balanced : bool
}.

(** The code after the loop: totals, then the balance validation. *)
Definition calculate_totals (statement : Amounts) : Statement :=
  let total_assets :=
    (statement cash_and_cash_equivalents +
     statement property_taxes_receivable +
     statement due_from_other_governments +
     statement due_from_fiduciary +
     statement other_receivables +
     statement inventories +
     statement unrealized_expenses +
     statement capital_assets_land +
     statement capital_assets_buildings_improvements +
     statement capital_assets_furniture_equipment +
     statement capital_assets_construction_in_progress)%Q in
  let total_deferred_outflows :=
    (statement deferred_charge_refunding +
     statement deferred_outflow_pensions +
     statement deferred_outflow_opeb)%Q in
  let total_liabilities :=
    (statement accounts_payable +
     statement interest_payable +
     statement accrued_liabilities +
     statement due_to_other_governments +
     statement unearned_revenue +
     statement noncurrent_due_within_one_year +
     statement noncurrent_due_more_than_one_year +
     statement noncurrent_net_pension_liability +
     statement noncurrent_net_opeb_liability)%Q in
  let total_deferred_inflows :=
    (statement deferred_inflow_pensions +
     statement deferred_inflow_opeb)%Q in
  let total_net_position :=
    (statement net_investment_capital_assets +
     statement restricted_state_federal_programs +
     statement restricted_debt_service +
     statement unrestricted)%Q in
  let left_side := (total_assets + total_deferred_outflows)%Q in
  let right_side := (total_liabilities + total_deferred_inflows + total_net_position)%Q in
  {| amount := statement;
     total_assets := total_assets;
     total_deferred_outflows := total_deferred_outflows;
     total_liabilities := total_liabilities;
     total_deferred_inflows := total_deferred_inflows;
     total_net_position := total_net_position;
     left_side := left_side;
     right_side := right_side;
     balanced := Qlt_bool (Qabs (left_side - right_side)) (1 # 100) |}.

Definition generate_government_wide_net_position
    (df : DataFrame) (mapping : Mapping) : Statement :=
  calculate_totals (fold_left (process_row mapping) df template).

End NetPosition.

(** ** main.py: generate_government_wide_activities *)

Module Activities.
Import Py MappingRules TrialBalance.

(** The program rows of [statement['governmental_activities']], in the
    order of the dictionary, without the two total rows. *)
Inductive program :=
| instruction | instructional_resources | curriculum_staff_dev
| instructional_leadership | school_leadership | guidance_counseling
| social_work | health_services | student_transportation | food_service
| cocurricular | general_admin | facilities_maintenance | security_monitoring
| data_processing | community_services | interest_long_term_debt
| bond_issuance_costs | capital_outlay | shared_services | other_intergovernmental.

Definition programs : list program :=
  [ instruction; instructional_resources; curriculum_staff_dev;
    instructional_leadership; school_leadership; guidance_counseling;
    social_work; health_services; student_transportation; food_service;
    cocurricular; general_admin; facilities_maintenance; security_monitoring;
    data_processing; community_services; interest_long_term_debt;
    bond_issuance_costs; capital_outlay; shared_services; other_intergovernmental ].

(** The accumulated columns of a program row. *)
Inductive column := expenses | charges_for_services | operating_grants.

(** The lines of [statement['general_revenues']], without the total. *)
Inductive revenue :=
| property_taxes_general | property_taxes_debt | chapter_313_payments
| investment_earnings | grants_contributions | miscellaneous.

Definition revenues : list revenue :=
  [ property_taxes_general; property_taxes_debt; chapter_313_payments;
    investment_earnings; grants_contributions; miscellaneous ].

Inductive leaf :=
| cell (p : program) (c : column)
| general_revenue (r : revenue).

Definition leaf_eq_dec (a b : leaf) : {a = b} + {a <> b}.
Proof. repeat decide equality. Defined.

Definition Amounts := leaf -> Q.

Definition template : Amounts := fun _ => 0%Q.

Definition add (l : leaf) (amount : Q) (statement : Amounts) : Amounts :=
  fun l' => if leaf_eq_dec l l' then (statement l' + amount)%Q else statement l'.

(** The program selected by a function code in the expense branch. *)
Definition expense_program (function_code : string) : program :=
  if function_code =? "11" then instruction
  else if function_code =? "12" then instructional_resources
  else if function_code =? "13" then curriculum_staff_dev
  else if function_code =? "21" then instructional_leadership
  else if function_code =? "23" then school_leadership
  else if function_code =? "31" then guidance_counseling
  else if function_code =? "32" then social_work
  else if function_code =? "33" then health_services
  else if function_code =? "34" then student_transportation
  else if function_code =? "35" then food_service
  else if function_code =? "36" then cocurricular
  else if function_code =? "41" then general_admin
  else if function_code =? "51" then facilities_maintenance
  else if function_code =? "52" then security_monitoring
  else if function_code =? "53" then data_processing
  else if function_code =? "61" then community_services
  else if function_code =? "72" then interest_long_term_debt
  else if function_code =? "73" then bond_issuance_costs
  else if function_code =? "81" then capital_outlay
  else if function_code =? "93" then shared_services
  else if function_code =? "99" then other_intergovernmental
  else general_admin.

(** The body of the loop over [df.iterrows()]. *)
Definition process_row (mapping : Mapping) (statement : Amounts) (row : Row) : Amounts :=
  let account_code := row_account_code row in
  let amount := current_year_actual row in
  match lookup account_code mapping with
  | Some account_mapping =>
    let gasb_category := gasb_category account_mapping in
    let tea_category := tea_category account_mapping in
    if (gasb_category =? "program_expenses") || (gasb_category =? "general_expenses") then
      let function_code :=
        if Nat.leb 5 (String.length account_code) then slice account_code 3 5 else "00" in
      add (cell (expense_program function_code) expenses) amount statement
    else if gasb_category =? "program_revenues" then
      let function_code :=
        if Nat.leb 5 (String.length account_code) then slice account_code 3 5 else "00" in
      if function_code =? "36" then add (cell cocurricular charges_for_services) amount statement
      else if function_code =? "11" then add (cell instruction operating_grants) amount statement
      else add (cell instruction operating_grants) amount statement
    else if gasb_category =? "general_revenues" then
      if contains "MT" account_code || contains "property" (lower tea_category) then
        add (general_revenue property_taxes_general) amount statement
      else if contains "DT" account_code || contains "debt" (lower tea_category) then
        add (general_revenue property_taxes_debt) amount statement
      else if contains "313" account_code || contains "chapter" (lower tea_category) then
        add (general_revenue chapter_313_payments) amount statement
      else if contains "IE" account_code || contains "investment" (lower tea_category) then
        add (general_revenue investment_earnings) amount statement
      else if contains "GC" account_code || contains "grant" (lower tea_category) then
        add (general_revenue grants_contributions) amount statement
      else if contains "MI" account_code || contains "miscellaneous" (lower tea_category) then
        add (general_revenue miscellaneous) amount statement
      else add (general_revenue miscellaneous) amount statement
    else statement
  | None => statement
  end.

(** A total row of [governmental_activities]. *)
Record TotalRow := {
  row_expenses : Q;
  row_charges_for_services : Q;
  row_operating_grants : Q;
  row_net_expense_revenue : Q
}.

Record Statement := {
  amount : Amounts;
  net_expense_revenue : program -> Q;
  total_governmental : TotalRow;
  total_primary : TotalRow;
  total_general_revenues : Q;
  change_in_net_position : Q;
  net_position_beginning : Q;
  net_position_ending : Q
}.

(** The code after the loop. *)
Definition calculate_totals (statement : Amounts) : Statement :=
  let net_expense_revenue := fun p =>
    (statement (cell p expenses) - statement (cell p charges_for_services)
     - statement (cell p operating_grants))%Q in
  let total_expenses := Qsum (map (fun p => statement (cell p expenses)) programs) in
  let total_charges :=
    Qsum (map (fun p => statement (cell p charges_for_services)) programs) in
  let total_grants := Qsum (map (fun p => statement (cell p operating_grants)) programs) in
  let total_net_expense := Qsum (map net_expense_revenue programs) in
  let totals :=
    {| row_expenses := total_expenses;
       row_charges_for_services := total_charges;
       row_operating_grants := total_grants;
       row_net_expense_revenue := total_net_expense |} in
  let total_general_revenues :=
    Qsum (map (fun r => statement (general_revenue r)) revenues) in
  let change_in_net_position := (total_general_revenues + total_net_expense)%Q in
  let beginning := 37913236%Q in
  {| amount := statement;
     net_expense_revenue := net_expense_revenue;
     total_governmental := totals;
     total_primary := totals;
     total_general_revenues := total_general_revenues;
     change_in_net_position := change_in_net_position;
     net_position_beginning := beginning;
     net_position_ending := (beginning + change_in_net_position)%Q |}.

Definition generate_government_wide_activities
    (df : DataFrame) (mapping : Mapping) : Statement :=
  calculate_totals (fold_left (process_row mapping) df template).

End Activities.

(** ** main.py: the vectorised aggregation shared by the two
     governmental-funds generators *)

Module Vectorized.
Import Py MappingRules TrialBalance.

Inductive fund_key := general_fund | non_major_funds.

Definition fund_key_eq_dec (a b : fund_key) : {a = b} + {a <> b}.
Proof. decide equality. Defined.

(** A row of [dfv] once the columns [object_code], [function_code],
    [amount] and [fund_key] have been added. *)
Record VRow := {
  v_account_code : string;
  object_code : string;
  function_code : string;
  v_amount : Q;
  v_fund_key : fund_key
}.

(** [lambda x: 'general_fund' if x == 'general_fund' else 'non_major_funds'];
    [None] is the missing value that a left merge leaves in
    [fund_category] for a row without a match. *)
Definition to_fund_key (fund_category : option string) : fund_key :=
  match fund_category with
  | Some x => if x =? "general_fund" then general_fund else non_major_funds
  | None => non_major_funds
  end.

Definition make_vrow (row : Row) (fund_category : option string) : VRow :=
  {| v_account_code := row_account_code row;
     object_code := slice (row_account_code row) 5 9;
     function_code := slice (row_account_code row) 3 5;
     v_amount := current_year_actual row;
     v_fund_key := to_fund_key fund_category |}.

(** [dfv.merge(map_df[['account_code', 'fund_category']], on='account_code',
    how='left')]: every row of [df] is kept; it is paired with each
    mapping entry whose [account_code] column equals the row's code, or
    with a missing [fund_category] when there is none. *)
Definition merge_left (df : DataFrame) (mapping : Mapping) : list VRow :=
  flat_map
    (fun row =>
       match filter (fun e => account_code e =? row_account_code row)
                    (map snd mapping) with
       | [] => [make_vrow row None]
       | matches => map (fun e => make_vrow row (Some (fund_category e))) matches
       end)
    df.

(** The construction of [dfv], up to the [fund_key] column. *)
Definition build_dfv (df : DataFrame) (mapping : Mapping) : list VRow :=
  match mapping with
  | [] => map (fun row => make_vrow row (Some "general_fund")) df
  | _ => merge_left df mapping
  end.

Section Aggregation.
Variable leaf : Type.
Variable leaf_eq_dec : forall a b : leaf, {a = b} + {a <> b}.

(** The per-fund amounts stored at every leaf. *)
Definition Amounts := leaf -> fund_key -> Q.

Definition template : Amounts := fun _ _ => 0%Q.

(** [node[target_path[-1]][fk] += float(val)]. *)
Definition add (target : leaf) (fk : fund_key) (val : Q) (statement : Amounts)
    : Amounts :=
  fun l k =>
    if leaf_eq_dec target l then
      if fund_key_eq_dec fk k then (statement l k + val)%Q else statement l k
    else statement l k.

(** [add_sum(mask, target_path)]: the selected rows are grouped by
    [fund_key]; only the keys that occur among them form a group, and
    the groups come in key order. *)
Definition add_sum (dfv : list VRow) (mask : VRow -> bool) (target : leaf)
    (statement : Amounts) : Amounts :=
  let selected := filter mask dfv in
  fold_left
    (fun st fk =>
       match filter (fun r => if fund_key_eq_dec (v_fund_key r) fk then true else false)
                    selected with
       | [] => st
       | group => add target fk (Qsum (map v_amount group)) st
       end)
    [general_fund; non_major_funds] statement.

(** A sequence of [add_sum] calls, in program order. *)
Definition add_sums (dfv : list VRow) (calls : list ((VRow -> bool) * leaf))
    (statement : Amounts) : Amounts :=
  fold_left (fun st call => add_sum dfv (fst call) (snd call) st) calls statement.

End Aggregation.

Arguments template {leaf}.

(** Column predicates used to build masks. *)
Definition oc_startswith (p : string) (r : VRow) : bool := startswith (object_code r) p.
Definition oc_eq (c : string) (r : VRow) : bool := object_code r =? c.
Definition oc_isin (cs : list string) (r : VRow) : bool := mem (object_code r) cs.
Definition fc_eq (c : string) (r : VRow) : bool := function_code r =? c.
Definition fc_isin (cs : list string) (r : VRow) : bool := mem (function_code r) cs.

End Vectorized.

(** ** main.py: generate_governmental_funds_balance *)

Module FundsBalance.
Import Py MappingRules TrialBalance Vectorized.

Inductive leaf :=
| cash_and_equivalents | taxes_receivable | due_from_other_governments
| due_from_other_funds | other_receivables | inventories | unrealized_expenditures
| accounts_payable | payroll_deductions | accrued_wages | due_to_other_funds
| due_to_other_governments | unearned_revenue
| unavailable_revenue_property_taxes
| nonspendable_inventories | nonspendable_prepaid_items
| restricted_federal_state_funds | restricted_retirement_long_term_debt
| restricted_other_restrictions
| committed_construction | committed_other_committed
| assigned_other_assigned
| unassigned.

Definition leaf_eq_dec (a b : leaf) : {a = b} + {a <> b}.
Proof. decide equality. Defined.

(** The [add_sum] calls of the generator, in program order. *)
Definition calls : list ((VRow -> bool) * leaf) :=
  [ (oc_startswith "11", cash_and_equivalents);
    (oc_eq "1225", taxes_receivable);
    (oc_eq "1240", due_from_other_governments);
    (oc_eq "1260", due_from_other_funds);
    (fun r => oc_startswith "12" r && negb (oc_isin ["1225"; "1240"; "1260"] r),
     other_receivables);
    (oc_startswith "13", inventories);
    (oc_startswith "14", unrealized_expenditures);
    (oc_eq "2110", accounts_payable);
    (oc_eq "2150", payroll_deductions);
    (oc_eq "2160", accrued_wages);
    (oc_eq "2170", due_to_other_funds);
    (oc_eq "2180", due_to_other_governments);
    (oc_eq "2300", unearned_revenue);
    (fun r => oc_eq "2601" r || oc_startswith "26" r, unavailable_revenue_property_taxes);
    (oc_eq "3410", nonspendable_inventories);
    (oc_eq "3430", nonspendable_prepaid_items);
    (oc_eq "3450", restricted_federal_state_funds);
    (oc_eq "3480", restricted_retirement_long_term_debt);
    (fun r => oc_eq "3490" r
              || (oc_startswith "34" r
                  && negb (oc_isin ["3410"; "3430"; "3450"; "3480"] r)),
     restricted_other_restrictions);
    (oc_eq "3510", committed_construction);
    (oc_eq "3545", committed_other_committed);
    (fun r => oc_eq "3590" r
              || (oc_startswith "35" r && negb (oc_isin ["3510"; "3545"; "3590"] r)),
     assigned_other_assigned);
    (oc_startswith "36", unassigned) ].

Record Statement := {
  amount : Amounts leaf;
  total_assets : fund_key -> Q;
  total_liabilities : fund_key -> Q;
  total_deferred_inflows : fund_key -> Q;
  total_fund_balances : fund_key -> Q;
  total_liabilities_deferred_fund_balances : fund_key -> Q
}.

(** The statement as initialised: every amount and every total is 0. *)
Definition initial_statement : Statement :=
  {| amount := template;
     total_assets := fun _ => 0%Q;
     total_liabilities := fun _ => 0%Q;
     total_deferred_inflows := fun _ => 0%Q;
     total_fund_balances := fun _ => 0%Q;
     total_liabilities_deferred_fund_balances := fun _ => 0%Q |}.

(** The loop over the two fund keys that computes the totals. *)
Definition calculate_totals (statement : Amounts leaf) : Statement :=
  let total_assets := fun fund_key =>
    (statement cash_and_equivalents fund_key +
     statement taxes_receivable fund_key +
     statement due_from_other_governments fund_key +
     statement due_from_other_funds fund_key +
     statement other_receivables fund_key +
     statement inventories fund_key +
     statement unrealized_expenditures fund_key)%Q in
  let total_liabilities := fun fund_key =>
    (statement accounts_payable fund_key +
     statement payroll_deductions fund_key +
     statement accrued_wages fund_key +
     statement due_to_other_funds fund_key +
     statement due_to_other_governments fund_key +
     statement unearned_revenue fund_key)%Q in
  let total_deferred_inflows := fun fund_key =>
    statement unavailable_revenue_property_taxes fund_key in
  let total_fund_balances := fun fund_key =>
    (statement nonspendable_inventories fund_key +
     statement nonspendable_prepaid_items fund_key +
     statement restricted_federal_state_funds fund_key +
     statement restricted_retirement_long_term_debt fund_key +
     statement restricted_other_restrictions fund_key +
     statement committed_construction fund_key +
     statement committed_other_committed fund_key +
     statement assigned_other_assigned fund_key +
     statement unassigned fund_key)%Q in
  {| amount := statement;
     total_assets := total_assets;
     total_liabilities := total_liabilities;
     total_deferred_inflows := total_deferred_inflows;
     total_fund_balances := total_fund_balances;
     total_liabilities_deferred_fund_balances := fun fund_key =>
       (total_liabilities fund_key + total_deferred_inflows fund_key
        + total_fund_balances fund_key)%Q |}.

Definition generate_governmental_funds_balance
    (df : DataFrame) (mapping : Mapping) : Statement :=
  match df with
  | [] => initial_statement
  | _ =>
    let dfv := build_dfv df mapping in
    calculate_totals (add_sums leaf leaf_eq_dec dfv calls template)
  end.

End FundsBalance.

(** ** main.py: generate_governmental_funds_revenues_expenditures *)

Module FundsRevExp.
Import Py MappingRules TrialBalance Vectorized.

Inductive leaf :=
| local_intermediate_sources | state_program_revenues | federal_program_revenues
| instruction | instructional_resources | curriculum_staff_dev
| instructional_leadership | school_leadership | guidance_counseling
| social_work | health_services | student_transportation | food_service
| cocurricular | general_admin | facilities_maintenance | security_monitoring
| data_processing | community_services | principal_long_term_debt
| interest_long_term_debt | bond_issuance_costs | capital_outlay
| shared_service_arrangements | other_intergovernmental
| sale_property | transfers_in | premium_bond_remarketing | other_resources
| transfers_out.

Definition leaf_eq_dec (a b : leaf) : {a = b} + {a <> b}.
Proof. decide equality. Defined.

Definition exp_map : list (string * leaf) :=
  [ ("11", instruction);
    ("12", instructional_resources);
    ("13", curriculum_staff_dev);
    ("21", instructional_leadership);
    ("23", school_leadership);
    ("31", guidance_counseling);
    ("32", social_work);
    ("33", health_services);
    ("34", student_transportation);
    ("35", food_service);
    ("36", cocurricular);
    ("41", general_admin);
    ("51", facilities_maintenance);
    ("52", security_monitoring);
    ("53", data_processing);
    ("61", community_services);
    ("71", principal_long_term_debt);
    ("72", interest_long_term_debt);
    ("73", bond_issuance_costs);
    ("81", capital_outlay);
    ("93", shared_service_arrangements);
    ("99", other_intergovernmental) ].

(** [str.match(r'57|58|59')]: the pattern is anchored at the start. *)
Definition oc_match_57_58_59 (r : VRow) : bool :=
  startswith_any (object_code r) ["57"; "58"; "59"].

(** The [add_sum] calls of the generator, in program order. *)
Definition calls : list ((VRow -> bool) * leaf) :=
  ([ (oc_startswith "57", local_intermediate_sources);
     (oc_startswith "58", state_program_revenues);
     (oc_startswith "59", federal_program_revenues);
     (fun r => oc_startswith "5" r && negb (oc_match_57_58_59 r),
      local_intermediate_sources) ]
   ++ map (fun item => (fun r => oc_startswith "6" r && fc_eq (fst item) r, snd item))
          exp_map
   ++ [ (fun r => oc_startswith "6" r && negb (fc_isin (map fst exp_map) r),
         general_admin);
        (oc_eq "7912", sale_property);
        (oc_eq "7915", transfers_in);
        (oc_eq "7916", premium_bond_remarketing);
        (oc_eq "7949", other_resources);
        (fun r => oc_startswith "79" r
                  && negb (oc_isin ["7912"; "7915"; "7916"; "7949"] r),
         other_resources);
        (fun r => oc_eq "8911" r || oc_startswith "8" r, transfers_out) ])%list.

Record Statement := {
  amount : Amounts leaf;
  total_revenues : fund_key -> Q;
  total_expenditures : fund_key -> Q;
  excess_deficiency : fund_key -> Q;
  total_other_financing : fund_key -> Q;
  net_change : fund_key -> Q;
  beginning : fund_key -> Q;
  ending : fund_key -> Q
}.

(** The statement as initialised: every amount and derived figure is 0. *)
Definition initial_statement : Statement :=
  {| amount := template;
     total_revenues := fun _ => 0%Q;
     total_expenditures := fun _ => 0%Q;
     excess_deficiency := fun _ => 0%Q;
     total_other_financing := fun _ => 0%Q;
     net_change := fun _ => 0%Q;
     beginning := fun _ => 0%Q;
     ending := fun _ => 0%Q |}.

(** The loop over the two fund keys that computes the derived figures. *)
Definition calculate_totals (statement : Amounts leaf) : Statement :=
  let total_revenues := fun fund_key =>
    (statement local_intermediate_sources fund_key +
     statement state_program_revenues fund_key +
     statement federal_program_revenues fund_key)%Q in
  let total_expenditures := fun fund_key =>
    (statement instruction fund_key +
     statement instructional_resources fund_key +
     statement curriculum_staff_dev fund_key +
     statement instructional_leadership fund_key +
     statement school_leadership fund_key +
     statement guidance_counseling fund_key +
     statement social_work fund_key +
     statement health_services fund_key +
     statement student_transportation fund_key +
     statement food_service fund_key +
     statement cocurricular fund_key +
     statement general_admin fund_key +
     statement facilities_maintenance fund_key +
     statement security_monitoring fund_key +
     statement data_processing fund_key +
     statement community_services fund_key +
     statement principal_long_term_debt fund_key +
     statement interest_long_term_debt fund_key +
     statement bond_issuance_costs fund_key +
     statement capital_outlay fund_key +
     statement shared_service_arrangements fund_key +
     statement other_intergovernmental fund_key)%Q in
  let excess_deficiency := fun fund_key =>
    (total_revenues fund_key - total_expenditures fund_key)%Q in
  let total_other_financing := fun fund_key =>
    (statement sale_property fund_key +
     statement transfers_in fund_key +
     statement premium_bond_remarketing fund_key +
     statement other_resources fund_key +
     statement transfers_out fund_key)%Q in
  let net_change := fun fund_key =>
    (excess_deficiency fund_key + total_other_financing fund_key)%Q in
  let beginning := fun fund_key =>
    if fund_key_eq_dec fund_key general_fund then 25217718%Q else 4550784%Q in
  {| amount := statement;
     total_revenues := total_revenues;
     total_expenditures := total_expenditures;
     excess_deficiency := excess_deficiency;
     total_other_financing := total_other_financing;
     net_change := net_change;
     beginning := beginning;
     ending := fun fund_key => (beginning fund_key + net_change fund_key)%Q |}.

Definition generate_governmental_funds_revenues_expenditures
    (df : DataFrame) (mapping : Mapping) : Statement :=
  match df with
  | [] => initial_statement
  | _ =>
    let dfv := build_dfv df mapping in
    calculate_totals (add_sums leaf leaf_eq_dec dfv calls template)
  end.

End FundsRevExp.

(** ** main.py: get_rollup_information *)

Module AuditTrail.
Import Py.

Record RollupInfo := { rollup_applied : bool; rollup_description : string }.

Definition get_rollup_information
    (account_code gasb_category object_code : string) : RollupInfo :=
  if gasb_category =? "Unmapped" then
    {| rollup_applied := false; rollup_description := "" |}
  else if startswith object_code "11" then
    {| rollup_applied := true;
       rollup_description := "Rolled up into Cash and Cash Equivalents" |}
  else if startswith object_code "12"
          && negb (mem object_code ["1225"; "1240"; "1267"]) then
    {| rollup_applied := true;
       rollup_description := "Rolled up into Other Receivables (Net)" |}
  else if startswith object_code "15"
          && negb (mem object_code ["1510"; "1520"; "1530"; "1580"]) then
    {| rollup_applied := true;
       rollup_description := "Rolled up into Buildings and Improvements, Net" |}
  else if startswith object_code "21"
          && negb (mem object_code ["2110"; "2140"; "2165"; "2180"; "2300"]) then
    {| rollup_applied := true;
       rollup_description := "Rolled up into Accounts Payable" |}
  else if startswith object_code "25"
          && negb (mem object_code ["2501"; "2502"; "2540"; "2545"]) then
    {| rollup_applied := true;
       rollup_description := "Rolled up into Due in More Than One Year" |}
  else if startswith object_code "38"
          && negb (mem object_code ["3820"; "3850"]) then
    {| rollup_applied := true;
       rollup_description := "Rolled up into State and Federal Programs" |}
  else
    {| rollup_applied := false; rollup_description := "" |}.

End AuditTrail.

(** ** mapping_rules.py: create_default_mapping and get_account_components *)

Module DefaultMapping.
Import Py MappingRules.

(** [d[k] = v]: the value of an existing key is replaced where it stands,
    a new key is appended. *)
Fixpoint dict_set {V : Type} (k : string) (v : V) (d : list (string * V))
    : list (string * V) :=
  match d with
  | [] => [(k, v)]
  | (k', v') :: d' =>
    if String.eqb k k' then (k', v) :: d' else (k', v') :: dict_set k v d'
  end.

(** [None] stands for an exception raised by a classifier. *)
Definition create_default_mapping (account_codes : list string) : option Mapping :=
  fold_left
    (fun acc code =>
       match acc with
       | Some mapping =>
         match get_tea_category code with
         | Some tea =>
           Some (dict_set code
                   {| account_code := code;
                      description := "Account " ++ code;
                      tea_category := tea;
                      gasb_category := get_gasb_category code;
                      fund_category := get_fund_category code;
                      statement_line := "XX";
                      notes := "" |}
                   mapping)
         | None => None
         end
       | None => None
       end)
    account_codes (Some []).

(** The pair returned by [validate_account_code]: [(False, message)] or
    [(True, components)]. *)
Inductive validation :=
| Rejected (message : string)
| Accepted (fund_code function_code object_code full_code : string).

(** [validate_account_code] with its whole result; the [except] arm of the
    source is unreachable, as slicing and [isdigit] do not raise. *)
Definition validate_account_code_result (account_code : string) : validation :=
  if Nat.ltb (String.length account_code) 9 then
    Rejected "Account code too short (minimum 9 digits required)"
  else
    let fund_code := slice account_code 0 3 in
    let function_code := slice account_code 3 5 in
    let object_code := slice account_code 5 9 in
    if negb (isdigit fund_code) || negb (isdigit function_code) || negb (isdigit object_code)
    then Rejected "Account code contains non-numeric characters"
    else Accepted fund_code function_code object_code account_code.

(** The dictionary returned by [get_account_components]; [error] is
    [None] when the key is absent. *)
Record Components := {
  fund_code : string;
  function_code : string;
  object_code : string;
  full_code : string;
  error : option string
}.

Definition get_account_components (account_code : string) : Components :=
  match validate_account_code_result account_code with
  | Accepted fund function object full =>
    {| fund_code := fund; function_code := function; object_code := object;
       full_code := full; error := None |}
  | Rejected result =>
    {| fund_code := "000"; function_code := "00"; object_code := "0000";
       full_code := account_code; error := Some result |}
  end.

End DefaultMapping.

(** ** main.py: get_statement_mapping_info and the audit-trail export loop *)

Module AuditExport.
Import Py MappingRules TrialBalance AuditTrail.

Record StatementInfo := {
  statement_type : string;
  statement_section : string;
  statement_line_code : string;
  statement_line_description : string
}.

(** The four local variables of [get_statement_mapping_info] at its
    [return]; a line that no branch sets keeps the defaults "XX" and
    "Unmapped Account". *)
Definition info (type section : string) (line : string * string) : StatementInfo :=
  {| statement_type := type; statement_section := section;
     statement_line_code := fst line; statement_line_description := snd line |}.

Definition no_line : string * string := ("XX", "Unmapped Account").

Definition get_statement_mapping_info
    (account_code gasb_category object_code function_code : string) : StatementInfo :=
  if gasb_category =? "Unmapped" then info "Unknown" "Unknown" no_line
  else if mem gasb_category
            ["current_assets"; "capital_assets"; "deferred_outflows";
             "current_liabilities"; "long_term_liabilities"; "deferred_inflows";
             "net_investment_capital_assets"; "restricted_net_position";
             "unrestricted_net_position"] then
    if mem gasb_category ["current_assets"; "capital_assets"] then
      info "Net Position" "ASSETS"
        (if startswith object_code "11" then ("1110", "Cash and Cash Equivalents")
         else if startswith object_code "12" then
           if object_code =? "1225" then ("1225", "Property Taxes Receivable (Net)")
           else if object_code =? "1240" then ("1240", "Due from Other Governments")
           else if object_code =? "1267" then ("1267", "Due from Fiduciary")
           else ("1290", "Other Receivables (Net)")
         else if startswith object_code "13" then ("1300", "Inventories")
         else if startswith object_code "14" then ("1410", "Unrealized Expenses")
         else if startswith object_code "15" then
           if object_code =? "1510" then ("1510", "Land")
           else if object_code =? "1520" then ("1520", "Buildings and Improvements, Net")
           else if object_code =? "1530" then ("1530", "Furniture and Equipment, Net")
           else if object_code =? "1580" then ("1580", "Construction in Progress")
           else ("1520", "Buildings and Improvements, Net")
         else no_line)
    else if gasb_category =? "deferred_outflows" then
      info "Net Position" "DEFERRED OUTFLOWS OF RESOURCES"
        (if object_code =? "1701" then ("1701", "Deferred Charge for Refunding")
         else if object_code =? "1705" then ("1705", "Deferred Outflow Related to Pensions")
         else if object_code =? "1706" then ("1706", "Deferred Outflow Related to OPEB")
         else ("1701", "Deferred Charge for Refunding"))
    else if mem gasb_category ["current_liabilities"; "long_term_liabilities"] then
      info "Net Position" "LIABILITIES"
        (if startswith object_code "21" then
           if object_code =? "2110" then ("2110", "Accounts Payable")
           else if object_code =? "2140" then ("2140", "Interest Payable")
           else if object_code =? "2165" then ("2165", "Accrued Liabilities")
           else if object_code =? "2180" then ("2180", "Due to Other Governments")
           else if object_code =? "2300" then ("2300", "Unearned Revenue")
           else ("2110", "Accounts Payable")
         else if startswith object_code "25" then
           if object_code =? "2501" then ("2501", "Due Within One Year")
           else if object_code =? "2502" then ("2502", "Due in More Than One Year")
           else if object_code =? "2540" then ("2540", "Net Pension Liability")
           else if object_code =? "2545" then ("2545", "Net OPEB Liability")
           else ("2502", "Due in More Than One Year")
         else no_line)
    else if gasb_category =? "deferred_inflows" then
      info "Net Position" "DEFERRED INFLOWS OF RESOURCES"
        (if object_code =? "2605" then ("2605", "Deferred Inflow Related to Pensions")
         else if object_code =? "2606" then ("2606", "Deferred Inflow Related to OPEB")
         else ("2605", "Deferred Inflow Related to Pensions"))
    else if mem gasb_category
              ["net_investment_capital_assets"; "restricted_net_position";
               "unrestricted_net_position"] then
      info "Net Position" "NET POSITION"
        (if gasb_category =? "net_investment_capital_assets" then
           ("3200", "Net Investment in Capital Assets")
         else if gasb_category =? "restricted_net_position" then
           if object_code =? "3820" then ("3820", "State and Federal Programs")
           else if object_code =? "3850" then ("3850", "Debt Service")
           else ("3820", "State and Federal Programs")
         else if gasb_category =? "unrestricted_net_position" then ("3900", "Unrestricted")
         else no_line)
    else info "Net Position" "Unknown" no_line
  else if mem gasb_category
            ["program_expenses"; "general_expenses"; "program_revenues";
             "general_revenues"; "other_resources"; "other_uses"] then
    if mem gasb_category ["program_expenses"; "general_expenses"] then
      info "Activities" "Governmental Activities"
        (if function_code =? "11" then ("11", "Instruction")
         else if function_code =? "12" then
           ("12", "Instructional Resources and Media Services")
         else if function_code =? "13" then ("13", "Curriculum and Staff Development")
         else if function_code =? "21" then ("21", "Instructional Leadership")
         else if function_code =? "23" then ("23", "School Leadership")
         else if function_code =? "31" then
           ("31", "Guidance, Counseling, and Evaluation Services")
         else if function_code =? "32" then ("32", "Social Work Services")
         else if function_code =? "33" then ("33", "Health Services")
         else if function_code =? "34" then ("34", "Student Transportation")
         else if function_code =? "35" then ("35", "Food Service")
         else if function_code =? "36" then
           ("36", "Cocurricular/Extracurricular Activities")
         else if function_code =? "41" then ("41", "General Administration")
         else if function_code =? "51" then
           ("51", "Facilities Maintenance and Operations")
         else if function_code =? "52" then ("52", "Security and Monitoring Services")
         else if function_code =? "53" then ("53", "Data Processing Services")
         else if function_code =? "61" then ("61", "Community Services")
         else if function_code =? "72" then ("72", "Interest on Long-term Debt")
         else if function_code =? "73" then ("73", "Bond Issuance Costs and Fees")
         else if function_code =? "81" then ("81", "Capital Outlay")
         else if function_code =? "93" then
           ("93", "Payments Related to Shared Services Arrangements")
         else if function_code =? "99" then ("99", "Other Intergovernmental Charges")
         else ("41", "General Administration"))
    else if mem gasb_category ["program_revenues"; "general_revenues"] then
      info "Activities" "General Revenues"
        (if gasb_category =? "program_revenues" then ("PR", "Program Revenues")
         else ("MT", "Property Taxes, Levied for General Purposes"))
    else if gasb_category =? "other_resources" then
      info "Activities" "General Revenues"
        (if object_code =? "7915" then ("7915", "Other Resources")
         else if startswith object_code "70" then ("70", "Investment Earnings")
         else if startswith object_code "72" then ("72", "Transfers In")
         else if startswith object_code "74" then ("74", "Proceeds from Debt")
         else ("79", "Other Resources"))
    else if gasb_category =? "other_uses" then
      info "Activities" "Governmental Activities"
        (if startswith object_code "80" then ("80", "Interest Expense")
         else if startswith object_code "82" then ("82", "Transfers Out")
         else if startswith object_code "84" then ("84", "Principal Payments on Debt")
         else ("89", "Other Uses"))
    else info "Activities" "Unknown" no_line
  else if startswith object_code "1" || startswith object_code "2"
          || startswith object_code "3" then
    info "Balance Sheet"
      (if startswith object_code "1" then "ASSETS"
       else if startswith object_code "2" then "LIABILITIES"
       else if startswith object_code "3" then "FUND BALANCES"
       else "Unknown")
      no_line
  else if startswith object_code "5" || startswith object_code "6" then
    info "Revenues & Expenditures"
      (if startswith object_code "5" then "REVENUES"
       else if startswith object_code "6" then "EXPENDITURES"
       else "Unknown")
      no_line
  else info "Unknown" "Unknown" no_line.

(** The ['code'] and ['description'] with which the template of the
    Statement of Net Position declares each leaf line item. *)
Definition net_position_line (l : NetPosition.leaf) : string * string :=
  match l with
  | NetPosition.cash_and_cash_equivalents => ("1110", "Cash and Cash Equivalents")
  | NetPosition.property_taxes_receivable => ("1225", "Property Taxes Receivable (Net)")
  | NetPosition.due_from_other_governments => ("1240", "Due from Other Governments")
  | NetPosition.due_from_fiduciary => ("1267", "Due from Fiduciary")
  | NetPosition.other_receivables => ("1290", "Other Receivables (Net)")
  | NetPosition.inventories => ("1300", "Inventories")
  | NetPosition.unrealized_expenses => ("1410", "Unrealized Expenses")
  | NetPosition.capital_assets_land => ("1510", "Land")
  | NetPosition.capital_assets_buildings_improvements =>
    ("1520", "Buildings and Improvements, Net")
  | NetPosition.capital_assets_furniture_equipment =>
    ("1530", "Furniture and Equipment, Net")
  | NetPosition.capital_assets_construction_in_progress =>
    ("1580", "Construction in Progress")
  | NetPosition.deferred_charge_refunding => ("1701", "Deferred Charge for Refunding")
  | NetPosition.deferred_outflow_pensions =>
    ("1705", "Deferred Outflow Related to Pensions")
  | NetPosition.deferred_outflow_opeb => ("1706", "Deferred Outflow Related to OPEB")
  | NetPosition.accounts_payable => ("2110", "Accounts Payable")
  | NetPosition.interest_payable => ("2140", "Interest Payable")
  | NetPosition.accrued_liabilities => ("2165", "Accrued Liabilities")
  | NetPosition.due_to_other_governments => ("2180", "Due to Other Governments")
  | NetPosition.unearned_revenue => ("2300", "Unearned Revenue")
  | NetPosition.noncurrent_due_within_one_year => ("2501", "Due Within One Year")
  | NetPosition.noncurrent_due_more_than_one_year =>
    ("2502", "Due in More Than One Year")
  | NetPosition.noncurrent_net_pension_liability => ("2540", "Net Pension Liability")
  | NetPosition.noncurrent_net_opeb_liability => ("2545", "Net OPEB Liability")
  | NetPosition.deferred_inflow_pensions =>
    ("2605", "Deferred Inflow Related to Pensions")
  | NetPosition.deferred_inflow_opeb => ("2606", "Deferred Inflow Related to OPEB")
  | NetPosition.net_investment_capital_assets =>
    ("3200", "Net Investment in Capital Assets")
  | NetPosition.restricted_state_federal_programs =>
    ("3820", "State and Federal Programs")
  | NetPosition.restricted_debt_service => ("3850", "Debt Service")
  | NetPosition.unrestricted => ("3900", "Unrestricted")
  end.

(** A record of [audit_data], as the loop of [export_audit_trail] builds
    it.  The keys left out copy the other amount columns of the row and
    carry the metadata of the request (upload date, clock, user, version). *)
Record AuditRecord := {
  audit_account_code : string;
  audit_current_year_actual : Q;
  fund_code : string;
  function_code : string;
  object_code : string;
  sub_object_code : string;
  location_code : string;
  unmapped_accounts : bool;
  tea_category : string;
  gasb_category : string;
  fund_category : string;
  statement : StatementInfo;
  mapping_method : string;
  mapping_confidence : string;
  processing_notes : string;
  rollup : RollupInfo
}.

(** The body of the loop over [df.iterrows()].  A mapping entry has no
    key [mapping_method], [mapping_confidence] or [processing_notes], so
    the three [.get] calls return their defaults. *)
Definition audit_record (mappings : Mapping) (row : Row) : AuditRecord :=
  let account_code := row_account_code row in
  let fund_code :=
    if Nat.leb 3 (String.length account_code) then slice account_code 0 3 else "000" in
  let function_code :=
    if Nat.leb 5 (String.length account_code) then slice account_code 3 5 else "00" in
  let object_code :=
    if Nat.leb 9 (String.length account_code) then slice account_code 5 9 else "0000" in
  let sub_object_code :=
    if Nat.leb 13 (String.length account_code) then slice account_code 9 13 else "0000" in
  let location_code :=
    if Nat.leb 19 (String.length account_code) then slice account_code 13 19
    else "000000" in
  let categories :=
    match lookup account_code mappings with
    | Some mapping =>
      (false,
       (MappingRules.tea_category mapping, MappingRules.gasb_category mapping,
        MappingRules.fund_category mapping),
       ("auto_mapped", "medium", ""))
    | None =>
      (true, ("Unmapped", "Unmapped", "Unmapped"),
       ("unmapped", "none", "Account not mapped"))
    end in
  let '(unmapped, (tea, gasb, fund), (method, confidence, notes)) := categories in
  {| audit_account_code := account_code;
     audit_current_year_actual := current_year_actual row;
     fund_code := fund_code;
     function_code := function_code;
     object_code := object_code;
     sub_object_code := sub_object_code;
     location_code := location_code;
     unmapped_accounts := unmapped;
     tea_category := tea;
     gasb_category := gasb;
     fund_category := fund;
     statement := get_statement_mapping_info account_code gasb object_code function_code;
     mapping_method := method;
     mapping_confidence := confidence;
     processing_notes := notes;
     rollup := get_rollup_information account_code gasb object_code |}.

(** The list [audit_data] after the loop. *)
Definition audit_data (mappings : Mapping) (df : DataFrame) : list AuditRecord :=
  map (audit_record mappings) df.

End AuditExport.

(** ** Reference definitions taken from the written specification

  These definitions restate, in the words of the specification, what the
  code above is compared with.  None of them is used by the embedding. *)

Module Spec.
Import Py MappingRules.

Definition digit_value (c : ascii) : option nat :=
  if is_digit c then Some (nat_of_ascii c - 48) else None.

(** The leading digit of a code, when it is one. *)
Definition leading_digit (s : string) : option nat :=
  match s with
  | String a _ => digit_value a
  | EmptyString => None
  end.

(** The two leading digits of a code read as a number, when they are digits. *)
Definition leading_two_digits (s : string) : option nat :=
  match s with
  | String a (String b _) =>
    match digit_value a, digit_value b with
    | Some x, Some y => Some (10 * x + y)
    | _, _ => None
    end
  | _ => None
  end.

(** "prefixes lo-hi". *)
Definition prefix_in (lo hi : nat) (p : option nat) : bool :=
  match p with
  | Some n => Nat.leb lo n && Nat.leb n hi
  | None => false
  end.

(** Phase 2 of the GASB resolution, as the specification tabulates it. *)
Definition gasb_prefix_rule (object_code : string) : string :=
  let p := leading_two_digits object_code in
  match leading_digit object_code with
  | Some 1 =>
    if prefix_in 11 14 p then "current_assets"
    else if prefix_in 15 15 p then "capital_assets"
    else if prefix_in 17 17 p then "deferred_outflows"
    else "current_assets"
  | Some 2 =>
    if prefix_in 21 23 p then "current_liabilities"
    else if prefix_in 24 25 p then "long_term_liabilities"
    else if prefix_in 26 26 p then "deferred_inflows"
    else "current_liabilities"
  | Some 3 =>
    if prefix_in 32 32 p then "net_investment_capital_assets"
    else if prefix_in 33 38 p then "restricted_net_position"
    else if prefix_in 39 39 p then "unrestricted_net_position"
    else "restricted_net_position"
  | Some 5 => if prefix_in 51 53 p then "program_revenues" else "general_revenues"
  | Some 6 => if prefix_in 61 65 p then "program_expenses" else "general_expenses"
  | Some 7 => "other_resources"
  | Some 8 => "other_uses"
  | _ => "unknown"
  end.

(** The enumerated category names of the three classifiers. *)
Definition tea_names : list string := (map snd TEA_OBJECT_CATEGORIES ++ ["Unknown"])%list.
Definition gasb_names : list string := (map fst GASB_CATEGORIES ++ ["unknown"])%list.
Definition fund_names : list string :=
  (map fst FUND_CATEGORIES ++ ["other_governmental_funds"])%list.

(** "an entry whose gasb_category is empty or 'unknown'". *)
Definition category_missing (gasb_category : string) : bool :=
  (gasb_category =? "") || (gasb_category =? "unknown").

(** "an essential group none of whose named sub-categories appears among
    the mapped gasb categories". *)
Definition group_uncovered (mapped : list string) (group : string * list string) : bool :=
  forallb (fun category => negb (mem category mapped)) (snd group).

(** The entries whose account code fails the format check, the entries
    that pass it, and among these the entries without a category. *)
Definition invalid_entries (mapping : Mapping) : Mapping :=
  filter (fun kv => negb (validate_account_code (fst kv))) mapping.

Definition checked_entries (mapping : Mapping) : Mapping :=
  filter (fun kv => validate_account_code (fst kv)) mapping.

Definition unmapped_entries (mapping : Mapping) : Mapping :=
  filter (fun kv => category_missing (gasb_category (snd kv))) (checked_entries mapping).

(** The coarse ranges in which a code is rolled up, with their named
    exceptions. *)
Definition rollup_expected (object_code : string) : Prop :=
  startswith object_code "11" = true \/
  (startswith object_code "12" = true /\
   ~ In object_code ["1225"; "1240"; "1267"]) \/
  (startswith object_code "15" = true /\
   ~ In object_code ["1510"; "1520"; "1530"; "1580"]) \/
  (startswith object_code "21" = true /\
   ~ In object_code ["2110"; "2140"; "2165"; "2180"; "2300"]) \/
  (startswith object_code "25" = true /\
   ~ In object_code ["2501"; "2502"; "2540"; "2545"]) \/
  (startswith object_code "38" = true /\
   ~ In object_code ["3820"; "3850"]).

(** The two-digit branches of the Statement of Net Position that have a
    line item or a default bucket. *)
Definition net_position_branches : list string :=
  ["11"; "12"; "13"; "14"; "15"; "17"; "21"; "25"; "26"; "32"; "38"; "39"].

(** The default bucket of each branch that has named exceptions: the
    branch, the codes with a line of their own, the bucket. *)
Definition net_position_default_buckets
    : list (string * list string * NetPosition.leaf) :=
  [ ("12", ["1225"; "1240"; "1267"], NetPosition.other_receivables);
    ("15", ["1510"; "1520"; "1530"; "1580"],
     NetPosition.capital_assets_buildings_improvements);
    ("17", ["1701"; "1705"; "1706"], NetPosition.deferred_charge_refunding);
    ("21", ["2110"; "2140"; "2165"; "2180"], NetPosition.accounts_payable);
    ("25", ["2501"; "2502"; "2540"; "2545"],
     NetPosition.noncurrent_due_more_than_one_year);
    ("26", ["2605"; "2606"], NetPosition.deferred_inflow_pensions);
    ("38", ["3820"; "3850"], NetPosition.restricted_state_federal_programs) ].

(** A mapping as the mapping store returns it: the [account_code] field
    of an entry is the key under which it is stored. *)
Definition keys_consistent (mapping : Mapping) : Prop :=
  forall kv, In kv mapping -> account_code (snd kv) = fst kv.

End Spec.


(** ** Reference definitions for the properties of the remaining code *)

Module Reference.
Import Py MappingRules.

(** The codes listed for clearing accounts in the GASB table. *)
Definition clearing_codes : list string :=
  match lookup "clearing_accounts" GASB_CATEGORIES with
  | Some details => tea_codes details
  | None => []
  end.

(** The fund category that belongs to the leading digit of a fund code. *)
Definition fund_by_leading_digit (fund_code : string) : string :=
  match fund_code with
  | String "1" _ => "general_fund"
  | String "2" _ => "special_revenue_funds"
  | String "3" _ => "enterprise_funds"
  | String "4" _ => "internal_service_funds"
  | String "5" _ => "debt_service_funds"
  | String "6" _ => "capital_projects_funds"
  | String "7" _ => "permanent_funds"
  | String "8" _ => "fiduciary_funds"
  | _ => "other_governmental_funds"
  end.

(** The TEA object category under which each GASB category falls. *)
Definition major_class : list (string * string) :=
  [ ("current_assets", "Assets");
    ("capital_assets", "Assets");
    ("deferred_outflows", "Assets");
    ("current_liabilities", "Liabilities");
    ("long_term_liabilities", "Liabilities");
    ("deferred_inflows", "Liabilities");
    ("net_investment_capital_assets", "Fund Balances/Net Position");
    ("restricted_net_position", "Fund Balances/Net Position");
    ("unrestricted_net_position", "Fund Balances/Net Position");
    ("clearing_accounts", "Clearing Accounts");
    ("program_revenues", "Revenues");
    ("general_revenues", "Revenues");
    ("program_expenses", "Expenditures/Expenses");
    ("general_expenses", "Expenditures/Expenses");
    ("other_resources", "Other Resources/Non-operating Revenues");
    ("other_uses", "Other Uses/Non-operating Expenses") ].

(** The distinct codes of a list, in the order of their first occurrence. *)
Definition distinct (codes : list string) : list string :=
  fold_left (fun seen code => set_add code seen) codes [].

(** The entry that auto-mapping stores under a code. *)
Definition default_entry (code : string) : MappingEntry :=
  {| account_code := code;
     description := "Account " ++ code;
     tea_category :=
       match get_tea_category code with
       | Some tea => tea
       | None => "Unknown"
       end;
     gasb_category := get_gasb_category code;
     fund_category := get_fund_category code;
     statement_line := "XX";
     notes := "" |}.

(** A row that has a mapping entry, a code of at least 9 characters and an
    object code in one of the given two-digit branches. *)
Definition routed_to (mapping : Mapping) (branches : list string)
    (row : TrialBalance.Row) : bool :=
  match lookup (TrialBalance.row_account_code row) mapping with
  | Some _ =>
    Nat.leb 9 (String.length (TrialBalance.row_account_code row))
    && startswith_any (slice (TrialBalance.row_account_code row) 5 9) branches
  | None => false
  end.

(** A row whose mapping entry carries one of the given GASB categories. *)
Definition with_category (mapping : Mapping) (categories : list string)
    (row : TrialBalance.Row) : bool :=
  match lookup (TrialBalance.row_account_code row) mapping with
  | Some entry => mem (gasb_category entry) categories
  | None => false
  end.

(** The sum of the amounts of the rows that satisfy a test. *)
Definition amount_of (test : TrialBalance.Row -> bool) (df : TrialBalance.DataFrame) : Q :=
  TrialBalance.Qsum (map TrialBalance.current_year_actual (filter test df)).

(** A row of [dfv] in the column of a fund key. *)
Definition in_column (k : Vectorized.fund_key) (r : Vectorized.VRow) : bool :=
  if Vectorized.fund_key_eq_dec (Vectorized.v_fund_key r) k then true else false.

(** A row of [dfv] selected by the mask of one of the calls that target a
    leaf. *)
Definition hit {leaf : Type} (leaf_eq_dec : forall a b : leaf, {a = b} + {a <> b})
    (calls : list ((Vectorized.VRow -> bool) * leaf)) (l : leaf)
    (r : Vectorized.VRow) : bool :=
  existsb (fun call => (if leaf_eq_dec (snd call) l then true else false) && fst call r)
          calls.

(** The sum of the amounts of the rows of [dfv] that satisfy a test. *)
Definition vsum (test : Vectorized.VRow -> bool) (dfv : list Vectorized.VRow) : Q :=
  TrialBalance.Qsum (map Vectorized.v_amount (filter test dfv)).

End Reference.
(** * Properties *)

Import Py MappingRules TrialBalance.

(** ** Strings, lists and dictionaries *)

Lemma mem_true_iff (x : string) (l : list string) : mem x l = true <-> In x l.
Proof.
  unfold mem. rewrite existsb_exists. split.
  - intros [y [Hy Heq]]. apply String.eqb_eq in Heq. now subst.
  - intros H. exists x. split; [assumption | apply String.eqb_refl].
Qed.

Lemma mem_false_iff (x : string) (l : list string) : mem x l = false <-> ~ In x l.
Proof.
  rewrite <- mem_true_iff. destruct (mem x l); split; congruence.
Qed.

Lemma get_in_range (s : string) : forall n, n < String.length s -> exists c, get n s = Some c.
Proof.
  induction s as [|a s IH]; intros n Hn; simpl in *.
  - lia.
  - destruct n as [|n].
    + now exists a.
    + apply IH. lia.
Qed.

Lemma get_default_in {V : Type} (d : list (string * V)) (k : string) (dflt : V) :
  In (get_default d k dflt) (map snd d ++ [dflt]).
Proof.
  unfold get_default.
  induction d as [|[k' v] d IH]; simpl.
  - now left.
  - destruct (k =? k'); [now left | now right].
Qed.

Lemma first_category_in {D : Type} (codes : D -> list string) (table : list (string * D))
    (key category : string) :
  first_category codes table key = Some category -> In category (map fst table).
Proof.
  unfold first_category.
  destruct (find _ table) as [[c d]|] eqn:Hfind; [|discriminate].
  intros [= <-]. apply find_some in Hfind. destruct Hfind as [Hin _].
  now apply (in_map fst) in Hin.
Qed.

(** First match wins: the categories declared before the hit do not hold
    the key. *)
Lemma first_category_split {D : Type} (codes : D -> list string)
    (before after : list (string * D)) (category : string) (details : D) (key : string) :
  In key (codes details) ->
  (forall entry, In entry before -> ~ In key (codes (snd entry))) ->
  first_category codes (before ++ (category, details) :: after) key = Some category.
Proof.
  intros Hhit Hmiss. unfold first_category.
  induction before as [|e before IH]; simpl.
  - apply mem_true_iff in Hhit. now rewrite Hhit.
  - assert (He : mem key (codes (snd e)) = false).
    { apply mem_false_iff. apply Hmiss. now left. }
    rewrite He. apply IH. intros entry Hentry. apply Hmiss. now right.
Qed.

Lemma first_category_none {D : Type} (codes : D -> list string) (table : list (string * D))
    (key : string) :
  (forall entry, In entry table -> ~ In key (codes (snd entry))) ->
  first_category codes table key = None.
Proof.
  intros Hmiss. unfold first_category.
  destruct (find _ table) as [[c d]|] eqn:Hfind; [|reflexivity].
  apply find_some in Hfind. destruct Hfind as [Hin Hmem].
  apply mem_true_iff in Hmem. now apply Hmiss in Hin.
Qed.

(** The boolean form of "no declared list holds the key", for evaluation. *)
Lemma no_exact_match_check {D : Type} (codes : D -> list string) (table : list (string * D))
    (key : string) :
  forallb (fun entry => negb (mem key (codes (snd entry)))) table = true ->
  forall entry, In entry table -> ~ In key (codes (snd entry)).
Proof.
  intros Hall entry Hin. rewrite forallb_forall in Hall.
  apply Hall in Hin. apply mem_false_iff. now destruct (mem key (codes (snd entry))).
Qed.


(** ** The classifier *)

(** The prefix fallback of [get_gasb_category] is the tabulated rule. *)
Lemma gasb_fallback_is_prefix_rule (object_code : string) :
  (if startswith object_code "1" then
     if startswith_any object_code ["11"; "12"; "13"; "14"] then "current_assets"
     else if startswith object_code "15" then "capital_assets"
     else if startswith object_code "17" then "deferred_outflows"
     else "current_assets"
   else if startswith object_code "2" then
     if startswith_any object_code ["21"; "22"; "23"] then "current_liabilities"
     else if startswith_any object_code ["24"; "25"] then "long_term_liabilities"
     else if startswith object_code "26" then "deferred_inflows"
     else "current_liabilities"
   else if startswith object_code "3" then
     if startswith object_code "32" then "net_investment_capital_assets"
     else if startswith_any object_code ["33"; "34"; "35"; "36"; "37"; "38"]
          then "restricted_net_position"
     else if startswith object_code "39" then "unrestricted_net_position"
     else "restricted_net_position"
   else if startswith object_code "5" then
     if startswith_any object_code ["51"; "52"; "53"] then "program_revenues"
     else "general_revenues"
   else if startswith object_code "6" then
     if startswith_any object_code ["61"; "62"; "63"; "64"; "65"] then "program_expenses"
     else "general_expenses"
   else if startswith object_code "7" then "other_resources"
   else if startswith object_code "8" then "other_uses"
   else "unknown")
  = Spec.gasb_prefix_rule object_code.
Proof.
  destruct object_code as [|a rest]; [reflexivity|].
  destruct a as [[] [] [] [] [] [] [] []]; try reflexivity;
    (destruct rest as [|b rest]; [reflexivity|];
     destruct b as [[] [] [] [] [] [] [] []]; try reflexivity;
     destruct rest; reflexivity).
Qed.

(** C4. [get_gasb_category] resolves in two phases.  A code shorter than 9
    characters yields "unknown".  Otherwise the object code (characters
    5:9) is looked up in the static code lists, in declaration order, and
    the first category whose list holds it wins; when no list holds it, the
    result is given by the tabulated prefix rule. *)
Theorem get_gasb_category_two_phase (account_code : string) :
  (String.length account_code < 9 -> get_gasb_category account_code = "unknown") /\
  (9 <= String.length account_code ->
   let object_code := slice account_code 5 9 in
   (forall before category details after,
       GASB_CATEGORIES = (before ++ (category, details) :: after)%list ->
       In object_code (tea_codes details) ->
       (forall entry, In entry before -> ~ In object_code (tea_codes (snd entry))) ->
       get_gasb_category account_code = category) /\
   ((forall entry, In entry GASB_CATEGORIES -> ~ In object_code (tea_codes (snd entry))) ->
    get_gasb_category account_code = Spec.gasb_prefix_rule object_code)).
Proof.
  unfold get_gasb_category. split.
  - intros Hshort. apply Nat.leb_gt in Hshort. now rewrite Hshort.
  - intros Hlong. apply Nat.leb_le in Hlong. rewrite Hlong. split.
    + intros before category details after Htable Hhit Hmiss.
      rewrite Htable.
      now rewrite (first_category_split tea_codes before after category details).
    + intros Hmiss.
      rewrite (first_category_none tea_codes GASB_CATEGORIES _ Hmiss).
      apply gasb_fallback_is_prefix_rule.
Qed.

(** Three runs of C4: a short code, an exact match on the list of the third
    declared category, and a code of a gap of the lists ("1495") that the
    prefix rule resolves. *)
Lemma get_gasb_category_two_phase_witness :
  get_gasb_category "19900" = "unknown" /\
  get_gasb_category "1990017050000000000" = "deferred_outflows" /\
  get_gasb_category "1990014950000000000" = "current_assets".
Proof.
  split; [|split].
  - apply (proj1 (get_gasb_category_two_phase "19900")). simpl. lia.
  - refine (proj1 (proj2 (get_gasb_category_two_phase "1990017050000000000") _)
              (firstn 2 GASB_CATEGORIES) "deferred_outflows"
              {| gasb_description := "Deferred Outflows of Resources";
                 tea_codes := ["1700"; "1701"; "1702"; "1703"; "1704";
                               "1705"; "1706"; "1707"; "1708"; "1709"] |}
              (skipn 3 GASB_CATEGORIES) _ _ _).
    + simpl. lia.
    + reflexivity.
    + apply mem_true_iff. reflexivity.
    + apply no_exact_match_check. reflexivity.
  - refine (proj2 (proj2 (get_gasb_category_two_phase "1990014950000000000") _) _).
    + simpl. lia.
    + apply no_exact_match_check. reflexivity.
Defined.

(** C6. On a code of at least 9 characters, all digits, the three
    classifiers return (the TEA classifier without raising) one of their
    enumerated category names. *)
Theorem classifiers_return_enumerated_names (account_code : string) :
  9 <= String.length account_code ->
  all_digits account_code = true ->
  (exists category,
      get_tea_category account_code = Some category /\ In category Spec.tea_names) /\
  In (get_gasb_category account_code) Spec.gasb_names /\
  In (get_fund_category account_code) Spec.fund_names.
Proof.
  intros Hlen _. split; [|split].
  - unfold get_tea_category, item.
    destruct (get_in_range account_code 5) as [c Hc]; [lia|].
    rewrite Hc. destruct (Nat.leb 9 (String.length account_code)).
    + eexists. split; [reflexivity|]. apply get_default_in.
    + exists "Unknown". split; [reflexivity|]. apply mem_true_iff. reflexivity.
  - unfold get_gasb_category.
    destruct (Nat.leb 9 (String.length account_code));
      [|apply mem_true_iff; reflexivity].
    destruct (first_category tea_codes GASB_CATEGORIES _) as [category|] eqn:Hfirst.
    + apply first_category_in in Hfirst. unfold Spec.gasb_names.
      apply in_or_app. now left.
    + repeat match goal with
             | |- context [if ?b then _ else _] => destruct b
             end; apply mem_true_iff; reflexivity.
  - unfold get_fund_category.
    destruct (Nat.leb 3 (String.length account_code));
      [|apply mem_true_iff; reflexivity].
    destruct (first_category fund_codes FUND_CATEGORIES _) as [category|] eqn:Hfirst.
    + apply first_category_in in Hfirst. unfold Spec.fund_names.
      apply in_or_app. now left.
    + repeat match goal with
             | |- context [if ?b then _ else _] => destruct b
             end; apply mem_true_iff; reflexivity.
Qed.

Lemma classifiers_return_enumerated_names_witness :
  (exists category,
      get_tea_category "1990011100000000000" = Some category /\ In category Spec.tea_names) /\
  In (get_gasb_category "1990011100000000000") Spec.gasb_names /\
  In (get_fund_category "1990011100000000000") Spec.fund_names.
Proof.
  apply (classifiers_return_enumerated_names "1990011100000000000").
  - simpl. lia.
  - reflexivity.
Defined.

(** ** validate_mapping *)

Lemma validate_step_cases (st : ValidationState) (kv : string * MappingEntry) :
  (validate_account_code (fst kv) = false /\
   validate_step st kv =
     {| st_mapped := st_mapped st; st_unmapped := st_unmapped st;
        st_invalid := (st_invalid st ++ [fst kv])%list |}) \/
  (validate_account_code (fst kv) = true /\
   Spec.category_missing (gasb_category (snd kv)) = true /\
   validate_step st kv =
     {| st_mapped := st_mapped st;
        st_unmapped := (st_unmapped st ++ [fst kv])%list;
        st_invalid := st_invalid st |}) \/
  (validate_account_code (fst kv) = true /\
   Spec.category_missing (gasb_category (snd kv)) = false /\
   validate_step st kv =
     {| st_mapped := set_add (gasb_category (snd kv)) (st_mapped st);
        st_unmapped := st_unmapped st; st_invalid := st_invalid st |}).
Proof.
  destruct kv as [code e]. unfold validate_step, Spec.category_missing. simpl.
  destruct (validate_account_code code); simpl.
  - right. destruct (gasb_category e =? ""); simpl.
    + left. auto.
    + destruct (gasb_category e =? "unknown"); simpl; [left | right]; auto.
  - left. auto.
Qed.

Lemma set_add_in (x y : string) (s : list string) :
  In y (set_add x s) <-> y = x \/ In y s.
Proof.
  unfold set_add. destruct (mem x s) eqn:Hmem.
  - apply mem_true_iff in Hmem. split; [auto | intros [->|H]; auto].
  - rewrite in_app_iff. simpl. split.
    + intros [H|[H|[]]]; auto.
    + intros [H|H]; auto.
Qed.

(** The loop invariant: what the three accumulators hold after the
    entries of [mapping] have been visited, starting from [st]. *)
Lemma validate_loop (mapping : Mapping) : forall st,
  let st' := fold_left validate_step mapping st in
  st_invalid st' = (st_invalid st ++ map fst (Spec.invalid_entries mapping))%list /\
  st_unmapped st' = (st_unmapped st ++ map fst (Spec.unmapped_entries mapping))%list /\
  (forall category,
      In category (st_mapped st') <->
      In category (st_mapped st) \/
      exists kv, In kv (Spec.checked_entries mapping) /\
                 Spec.category_missing (gasb_category (snd kv)) = false /\
                 gasb_category (snd kv) = category).
Proof.
  unfold Spec.invalid_entries, Spec.unmapped_entries, Spec.checked_entries.
  induction mapping as [|kv mapping IH]; intros st; simpl.
  - repeat rewrite app_nil_r. repeat split; auto.
    intros [H|[kv [[] _]]]. assumption.
  - specialize (IH (validate_step st kv)). simpl in IH.
    destruct IH as [Hinv [Hunm Hmap]].
    rewrite Hinv, Hunm.
    destruct (validate_step_cases st kv) as [[Hv Hs]|[[Hv [Hm Hs]]|[Hv [Hm Hs]]]];
      rewrite Hs in *; rewrite Hv; simpl; try rewrite Hm; simpl;
      repeat rewrite <- app_assoc; simpl; (split; [reflexivity|]);
      (split; [reflexivity|]); intros category; rewrite Hmap; simpl.
    + tauto.
    + split.
      * intros [H|[kv' [Hin H]]]; [now left|].
        right. exists kv'. split; [now right | assumption].
      * intros [H|[kv' [[Heq|Hin] [Hm' Hc]]]]; [now left | |].
        -- subst kv'. congruence.
        -- right. now exists kv'.
    + rewrite set_add_in. split.
      * intros [[H|H]|[kv' [Hin H]]].
        -- right. exists kv. subst. auto.
        -- now left.
        -- right. exists kv'. split; [now right | assumption].
      * intros [H|[kv' [[Heq|Hin] [Hm' Hc]]]].
        -- left. now right.
        -- subst kv'. left. now left.
        -- right. now exists kv'.
Qed.

Lemma warnings_as_filter (mapped : list string) (groups : list (string * list string)) :
  flat_map (fun group =>
              if negb (existsb (fun cat => mem cat mapped) (snd group))
              then [warning_for (fst group)] else []) groups
  = map (fun group => warning_for (fst group))
        (filter (Spec.group_uncovered mapped) groups).
Proof.
  induction groups as [|g groups IH]; simpl; [reflexivity|].
  assert (Hg : negb (existsb (fun cat => mem cat mapped) (snd g))
               = Spec.group_uncovered mapped g).
  { unfold Spec.group_uncovered. induction (snd g) as [|c cs IHc]; simpl; [reflexivity|].
    rewrite negb_orb. now rewrite IHc. }
  rewrite Hg. destruct (Spec.group_uncovered mapped g); simpl; now rewrite IH.
Qed.



(** ** The audit trail: rollup metadata *)

Import AuditTrail.

(** C8. For an account that is not "Unmapped", [rollup_applied] is set
    exactly on the coarse ranges 11xx, 12xx, 15xx, 21xx, 25xx and 38xx
    outside their named exceptions; "1199" is rolled up into Cash and Cash
    Equivalents and "1225" is not rolled up. *)
Theorem rollup_applied_on_coarse_ranges (account_code gasb_category object_code : string) :
  gasb_category <> "Unmapped" ->
  let info := get_rollup_information account_code gasb_category object_code in
  (rollup_applied info = true <-> Spec.rollup_expected object_code) /\
  (object_code = "1199" ->
   rollup_applied info = true /\
   contains "Cash and Cash Equivalents" (rollup_description info) = true) /\
  (object_code = "1225" -> rollup_applied info = false).
Proof.
  intros Hmapped info. subst info. unfold get_rollup_information.
  apply String.eqb_neq in Hmapped. rewrite Hmapped.
  split; [|split].
  - unfold Spec.rollup_expected.
    repeat rewrite <- mem_false_iff. repeat rewrite <- negb_true_iff.
    repeat rewrite <- andb_true_iff.
    repeat match goal with
           | |- context [if ?b then _ else _] => destruct b; cbn [rollup_applied]
           end;
      intuition congruence.
  - intros ->. split; reflexivity.
  - intros ->. reflexivity.
Qed.

Lemma rollup_applied_on_coarse_ranges_witness :
  let info := get_rollup_information "1990011990000000000" "current_assets" "1199" in
  (rollup_applied info = true <-> Spec.rollup_expected "1199") /\
  ("1199" = "1199" ->
   rollup_applied info = true /\
   contains "Cash and Cash Equivalents" (rollup_description info) = true) /\
  ("1199" = "1225" -> rollup_applied info = false).
Proof.
  apply (rollup_applied_on_coarse_ranges "1990011990000000000" "current_assets" "1199").
  discriminate.
Defined.

(** ** The Statement of Activities: general revenues *)

Lemma contains_head_not_digit (c : ascii) (sub s : string) :
  is_digit c = false -> all_digits s = true -> contains (String c sub) s = false.
Proof.
  intros Hc. induction s as [|a s IH]; intros Hs; simpl in *.
  - reflexivity.
  - apply andb_true_iff in Hs. destruct Hs as [Ha Hs].
    destruct (ascii_dec c a) as [->|Hne]; [congruence|].
    simpl. now apply IH.
Qed.

Lemma tea_names_have_no_revenue_keyword (tea_category : string) :
  In tea_category (map snd TEA_OBJECT_CATEGORIES) ->
  contains "property" (lower tea_category) = false /\
  contains "debt" (lower tea_category) = false /\
  contains "chapter" (lower tea_category) = false /\
  contains "investment" (lower tea_category) = false /\
  contains "grant" (lower tea_category) = false /\
  contains "miscellaneous" (lower tea_category) = false.
Proof.
  simpl. intros H.
  repeat (destruct H as [<-|H]; [vm_compute; repeat split|]).
  destruct H.
Qed.



(** ** The Statement of Net Position *)

Lemma Qlt_bool_iff (x y : Q) : Qlt_bool x y = true <-> (x < y)%Q.
Proof. unfold Qlt_bool, Qlt. apply Z.ltb_lt. Qed.

(** C5. In the generated statement the leaf amounts are those folded from
    the rows; each of the five totals is the sum of its named leaves; the
    two sides of the balance equation are the sums of the totals, and
    [balanced] holds exactly when they differ by less than 0.01. *)
Theorem net_position_totals_and_balance (df : DataFrame) (mapping : Mapping) :
  let s := NetPosition.generate_government_wide_net_position df mapping in
  let a := NetPosition.amount s in
  a = fold_left (NetPosition.process_row mapping) df NetPosition.template /\
  NetPosition.left_side s
  = (NetPosition.total_assets s + NetPosition.total_deferred_outflows s)%Q /\
  NetPosition.right_side s
  = (NetPosition.total_liabilities s + NetPosition.total_deferred_inflows s
     + NetPosition.total_net_position s)%Q /\
  (NetPosition.balanced s = true <->
   (Qabs (NetPosition.left_side s - NetPosition.right_side s) < 1 # 100)%Q) /\
  NetPosition.total_assets s
  = (a NetPosition.cash_and_cash_equivalents + a NetPosition.property_taxes_receivable
     + a NetPosition.due_from_other_governments + a NetPosition.due_from_fiduciary
     + a NetPosition.other_receivables + a NetPosition.inventories
     + a NetPosition.unrealized_expenses + a NetPosition.capital_assets_land
     + a NetPosition.capital_assets_buildings_improvements
     + a NetPosition.capital_assets_furniture_equipment
     + a NetPosition.capital_assets_construction_in_progress)%Q /\
  NetPosition.total_deferred_outflows s
  = (a NetPosition.deferred_charge_refunding + a NetPosition.deferred_outflow_pensions
     + a NetPosition.deferred_outflow_opeb)%Q /\
  NetPosition.total_liabilities s
  = (a NetPosition.accounts_payable + a NetPosition.interest_payable
     + a NetPosition.accrued_liabilities + a NetPosition.due_to_other_governments
     + a NetPosition.unearned_revenue + a NetPosition.noncurrent_due_within_one_year
     + a NetPosition.noncurrent_due_more_than_one_year
     + a NetPosition.noncurrent_net_pension_liability
     + a NetPosition.noncurrent_net_opeb_liability)%Q /\
  NetPosition.total_deferred_inflows s
  = (a NetPosition.deferred_inflow_pensions + a NetPosition.deferred_inflow_opeb)%Q /\
  NetPosition.total_net_position s
  = (a NetPosition.net_investment_capital_assets
     + a NetPosition.restricted_state_federal_programs
     + a NetPosition.restricted_debt_service + a NetPosition.unrestricted)%Q.
Proof.
  cbv zeta. unfold NetPosition.generate_government_wide_net_position.
  set (folded := fold_left (NetPosition.process_row mapping) df NetPosition.template).
  unfold NetPosition.calculate_totals.
  cbn [NetPosition.amount NetPosition.total_assets NetPosition.total_deferred_outflows
       NetPosition.total_liabilities NetPosition.total_deferred_inflows
       NetPosition.total_net_position NetPosition.left_side NetPosition.right_side
       NetPosition.balanced].
  repeat split; try reflexivity; apply Qlt_bool_iff.
Qed.

(** [add] changes the amount of its leaf, and of no other. *)
Lemma net_position_add_spec (l : NetPosition.leaf) (amount : Q)
    (statement : NetPosition.Amounts) :
  NetPosition.add l amount statement l = (statement l + amount)%Q /\
  forall l', l' <> l -> NetPosition.add l amount statement l' = statement l'.
Proof.
  unfold NetPosition.add. split.
  - destruct (NetPosition.leaf_eq_dec l l); [reflexivity | congruence].
  - intros l' Hne. destruct (NetPosition.leaf_eq_dec l l'); [congruence | reflexivity].
Qed.

Ltac case_tests :=
  repeat match goal with
         | |- context [if ?b then _ else _] => destruct b
         end.

Lemma prefix_two (x y : ascii) (s : string) :
  prefix (String x (String y "")) s = true -> exists rest, s = String x (String y rest).
Proof.
  destruct s as [|a [|b rest]]; simpl; try discriminate.
  - destruct (ascii_dec x a); discriminate.
  - destruct (ascii_dec x a) as [->|]; [|discriminate].
    destruct (ascii_dec y b) as [->|]; [|discriminate].
    intros _. now exists rest.
Qed.

(** Every two-digit branch of the statement ends in a line item. *)
Lemma net_position_branch_routed (mapping : Mapping) (statement : NetPosition.Amounts)
    (row : Row) (entry : MappingEntry) :
  lookup (row_account_code row) mapping = Some entry ->
  9 <= String.length (row_account_code row) ->
  startswith_any (slice (row_account_code row) 5 9) Spec.net_position_branches = true ->
  exists l,
    NetPosition.process_row mapping statement row
    = NetPosition.add l (current_year_actual row) statement.
Proof.
  intros Hentry Hlen. unfold NetPosition.process_row.
  rewrite Hentry. apply Nat.leb_le in Hlen. rewrite Hlen.
  generalize (slice (row_account_code row) 5 9) as object_code.
  intros object_code Hbranch.
  unfold Spec.net_position_branches, startswith_any, startswith in Hbranch.
  cbn [existsb] in Hbranch.
  repeat (apply orb_true_iff in Hbranch; destruct Hbranch as [Hbranch|Hbranch]);
    try discriminate;
    apply prefix_two in Hbranch; destruct Hbranch as [rest ->];
    destruct rest; cbn -[NetPosition.add]; case_tests; eexists; reflexivity.
Qed.

Lemma prefix_empty (s : string) : prefix "" s = true.
Proof. now destruct s. Qed.

(** Inside a branch with named exceptions, any other code falls into the
    default bucket. *)
Lemma net_position_default_bucket (mapping : Mapping) (statement : NetPosition.Amounts)
    (row : Row) (entry : MappingEntry) (branch : string) (named : list string)
    (bucket : NetPosition.leaf) :
  lookup (row_account_code row) mapping = Some entry ->
  9 <= String.length (row_account_code row) ->
  In (branch, named, bucket) Spec.net_position_default_buckets ->
  startswith (slice (row_account_code row) 5 9) branch = true ->
  ~ In (slice (row_account_code row) 5 9) named ->
  NetPosition.process_row mapping statement row
  = NetPosition.add bucket (current_year_actual row) statement.
Proof.
  intros Hentry Hlen Hbucket. unfold NetPosition.process_row.
  rewrite Hentry. apply Nat.leb_le in Hlen. rewrite Hlen.
  generalize (slice (row_account_code row) 5 9) as object_code.
  intros object_code Hbranch Hnamed.
  unfold Spec.net_position_default_buckets, startswith in *.
  cbn [In] in Hbucket.
  repeat (destruct Hbucket as [Hbucket|Hbucket];
          [injection Hbucket as <- <- <-|]); [..|destruct Hbucket];
    apply prefix_two in Hbranch; destruct Hbranch as [rest ->];
    cbn -[NetPosition.add]; rewrite ?prefix_empty;
    repeat match goal with
           | |- context [if String.eqb ?x ?y then _ else _] =>
             destruct (String.eqb_spec x y) as [->|_];
             [exfalso; apply Hnamed; simpl; tauto|]
           end;
    reflexivity.
Qed.

(** C1, as the code has it.  A mapped row whose object code lies in one of
    the two-digit branches 11-15, 17, 21, 25, 26, 32, 38 or 39 adds its
    amount to exactly one leaf line item and leaves the others untouched;
    within a branch that has named codes, any other code goes to the
    default bucket of the branch (an unrecognised 15xx code to
    capital_assets.buildings_improvements, an unrecognised 21xx code to
    accounts_payable). *)
Theorem net_position_amount_reaches_one_leaf (mapping : Mapping)
    (statement : NetPosition.Amounts) (row : Row) (entry : MappingEntry) :
  lookup (row_account_code row) mapping = Some entry ->
  9 <= String.length (row_account_code row) ->
  let object_code := slice (row_account_code row) 5 9 in
  let statement' := NetPosition.process_row mapping statement row in
  (startswith_any object_code Spec.net_position_branches = true ->
   exists l,
     statement' l = (statement l + current_year_actual row)%Q /\
     forall l', l' <> l -> statement' l' = statement l') /\
  (forall branch named bucket,
      In (branch, named, bucket) Spec.net_position_default_buckets ->
      startswith object_code branch = true ->
      ~ In object_code named ->
      statement' = NetPosition.add bucket (current_year_actual row) statement).
Proof.
  intros Hentry Hlen object_code statement'. subst object_code statement'. split.
  - intros Hbranch.
    destruct (net_position_branch_routed mapping statement row entry Hentry Hlen Hbranch)
      as [l Hl].
    exists l. rewrite Hl. apply net_position_add_spec.
  - intros branch named bucket Hbucket Hbranch Hnamed.
    now apply (net_position_default_bucket mapping statement row entry branch named).
Qed.

(** A run of C1 on object code "1599": the amount lands in
    buildings_improvements, and nowhere else. *)
Lemma net_position_amount_reaches_one_leaf_witness :
  let entry := {| account_code := "1990015990000000000";
                  description := "Account 1990015990000000000";
                  tea_category := "Assets";
                  gasb_category := "capital_assets";
                  fund_category := "general_fund";
                  statement_line := "XX";
                  notes := "" |} in
  let row := {| row_account_code := "1990015990000000000";
                current_year_actual := 750 |} in
  let statement' :=
    NetPosition.process_row [("1990015990000000000", entry)] NetPosition.template row in
  (exists l,
      statement' l = (NetPosition.template l + 750)%Q /\
      forall l', l' <> l -> statement' l' = NetPosition.template l') /\
  statement'
  = NetPosition.add NetPosition.capital_assets_buildings_improvements 750
                    NetPosition.template.
Proof.
  intros entry row statement'.
  destruct (net_position_amount_reaches_one_leaf
              [("1990015990000000000", entry)] NetPosition.template row entry)
    as [Hone Hbucket].
  - reflexivity.
  - simpl. lia.
  - split.
    + apply Hone. reflexivity.
    + apply (Hbucket "15" ["1510"; "1520"; "1530"; "1580"]).
      * simpl. tauto.
      * reflexivity.
      * apply mem_false_iff. reflexivity.
Defined.

(** C1 does not hold for every object code that begins with 1, 2 or 3:
    the mapped row below has object code "2210", and no leaf receives its
    amount. *)
Lemma net_position_drops_unrouted_branch :
  ~ (forall (mapping : Mapping) (statement : NetPosition.Amounts) (row : Row)
            (entry : MappingEntry),
        lookup (row_account_code row) mapping = Some entry ->
        9 <= String.length (row_account_code row) ->
        startswith_any (slice (row_account_code row) 5 9) ["1"; "2"; "3"] = true ->
        exists l,
          (NetPosition.process_row mapping statement row l
           == statement l + current_year_actual row)%Q /\
          forall l', l' <> l ->
                     NetPosition.process_row mapping statement row l' = statement l').
Proof.
  intros Hclaim.
  pose (entry := {| account_code := "1990022100000000000";
                    description := "Account 1990022100000000000";
                    tea_category := "Liabilities";
                    gasb_category := "current_liabilities";
                    fund_category := "general_fund";
                    statement_line := "XX";
                    notes := "" |}).
  destruct (Hclaim [("1990022100000000000", entry)] NetPosition.template
              {| row_account_code := "1990022100000000000";
                 current_year_actual := 100 |} entry)
    as [l [Hl _]].
  - reflexivity.
  - simpl. lia.
  - reflexivity.
  - destruct l; vm_compute in Hl; discriminate.
Qed.

(** ** Rows without a mapping entry, and the empty mapping *)

Import Vectorized.

Lemma fold_left_skip {A B : Type} (f : A -> B -> A) (x : B) (before after : list B) (a : A) :
  (forall a', f a' x = a') ->
  fold_left f (before ++ x :: after)%list a = fold_left f (before ++ after)%list a.
Proof.
  intros Hskip. repeat rewrite fold_left_app. simpl. now rewrite Hskip.
Qed.

Lemma fold_left_id {A B : Type} (f : A -> B -> A) (l : list B) (a : A) :
  (forall a' x, f a' x = a') -> fold_left f l a = a.
Proof.
  intros Hid. induction l as [|x l IH]; simpl; [reflexivity|]. now rewrite Hid.
Qed.

Lemma net_position_skips_unmapped (mapping : Mapping) (row : Row) :
  lookup (row_account_code row) mapping = None ->
  forall statement, NetPosition.process_row mapping statement row = statement.
Proof. intros Hnone statement. unfold NetPosition.process_row. now rewrite Hnone. Qed.

Lemma activities_skips_unmapped (mapping : Mapping) (row : Row) :
  lookup (row_account_code row) mapping = None ->
  forall statement, Activities.process_row mapping statement row = statement.
Proof. intros Hnone statement. unfold Activities.process_row. now rewrite Hnone. Qed.

(** No entry is stored under a code that [lookup] does not find. *)
Lemma no_match_for_missing_key (mapping : Mapping) (code : string) :
  Spec.keys_consistent mapping ->
  lookup code mapping = None ->
  filter (fun e => account_code e =? code) (map snd mapping) = [].
Proof.
  unfold Spec.keys_consistent.
  induction mapping as [|[k e] mapping IH]; intros Hkeys Hnone; simpl in *.
  - reflexivity.
  - destruct (String.eqb_spec code k) as [Heq|Hne]; [discriminate|].
    pose proof (Hkeys (k, e) (or_introl eq_refl)) as Hk. simpl in Hk. rewrite Hk.
    destruct (String.eqb_spec k code) as [Heq|_]; [congruence|].
    apply IH; [|assumption]. intros kv Hin. apply Hkeys. now right.
Qed.

(** The left merge does not tell a row without a match from a row matched
    to a fund category other than "general_fund". *)
Lemma merge_left_unmapped_as_non_major (df : DataFrame) (mapping : Mapping)
    (code : string) (entry : MappingEntry) :
  Spec.keys_consistent mapping ->
  lookup code mapping = None ->
  account_code entry = code ->
  fund_category entry <> "general_fund" ->
  merge_left df (mapping ++ [(code, entry)])%list = merge_left df mapping.
Proof.
  intros Hkeys Hnone Hcode Hfund. unfold merge_left.
  induction df as [|row df IH]; [reflexivity|].
  cbn [flat_map]. rewrite IH. f_equal.
  rewrite map_app, filter_app. cbn [map snd filter]. rewrite Hcode.
  destruct (String.eqb_spec code (row_account_code row)) as [<-|Hne].
  - rewrite (no_match_for_missing_key mapping code Hkeys Hnone). simpl.
    unfold make_vrow, to_fund_key.
    apply String.eqb_neq in Hfund. now rewrite Hfund.
  - now rewrite app_nil_r.
Qed.

Lemma build_dfv_unmapped_as_non_major (df : DataFrame) (mapping : Mapping)
    (code : string) (entry : MappingEntry) :
  mapping <> [] ->
  Spec.keys_consistent mapping ->
  lookup code mapping = None ->
  account_code entry = code ->
  fund_category entry <> "general_fund" ->
  build_dfv df (mapping ++ [(code, entry)])%list = build_dfv df mapping.
Proof.
  intros Hnonempty Hkeys Hnone Hcode Hfund.
  destruct mapping as [|kv mapping]; [congruence|].
  unfold build_dfv. simpl app.
  now apply (merge_left_unmapped_as_non_major df (kv :: mapping)).
Qed.

(** C2, as the code has it.  In the net-position and activities generators
    a row whose account code has no mapping entry contributes nothing: the
    statement is the one produced without the row.  The two
    governmental-funds generators do not skip such a row: with a non-empty
    mapping they produce the statement they would produce if the code were
    mapped to a fund category other than "general_fund", so the row is
    aggregated, by its object and function code, in the non_major_funds
    column. *)
Theorem rows_without_mapping_entry (mapping : Mapping) (before after : DataFrame)
    (row : Row) :
  lookup (row_account_code row) mapping = None ->
  NetPosition.generate_government_wide_net_position (before ++ row :: after)%list mapping
  = NetPosition.generate_government_wide_net_position (before ++ after)%list mapping /\
  Activities.generate_government_wide_activities (before ++ row :: after)%list mapping
  = Activities.generate_government_wide_activities (before ++ after)%list mapping /\
  (mapping <> [] ->
   Spec.keys_consistent mapping ->
   forall entry,
     account_code entry = row_account_code row ->
     fund_category entry <> "general_fund" ->
     let df := (before ++ row :: after)%list in
     let mapping' := (mapping ++ [(row_account_code row, entry)])%list in
     FundsBalance.generate_governmental_funds_balance df mapping
     = FundsBalance.generate_governmental_funds_balance df mapping' /\
     FundsRevExp.generate_governmental_funds_revenues_expenditures df mapping
     = FundsRevExp.generate_governmental_funds_revenues_expenditures df mapping').
Proof.
  intros Hnone. split; [|split].
  - unfold NetPosition.generate_government_wide_net_position.
    now rewrite (fold_left_skip _ row before after _
                   (net_position_skips_unmapped mapping row Hnone)).
  - unfold Activities.generate_government_wide_activities.
    now rewrite (fold_left_skip _ row before after _
                   (activities_skips_unmapped mapping row Hnone)).
  - intros Hnonempty Hkeys entry Hcode Hfund df mapping'.
    unfold FundsBalance.generate_governmental_funds_balance,
      FundsRevExp.generate_governmental_funds_revenues_expenditures.
    subst mapping'.
    rewrite (build_dfv_unmapped_as_non_major df mapping _ entry
               Hnonempty Hkeys Hnone Hcode Hfund).
    split; reflexivity.
Qed.

Lemma rows_without_mapping_entry_witness :
let other := {| account_code := "2990011100000000000";
                description := "Account 2990011100000000000";
                tea_category := "Assets";
                gasb_category := "current_assets";
                fund_category := "special_revenue_funds";
                statement_line := "XX";
                notes := "" |} in
let entry := {| account_code := "1990011100000000000";
                description := "Account 1990011100000000000";
                tea_category := "Assets";
                gasb_category := "current_assets";
                fund_category := "special_revenue_funds";
                statement_line := "XX";
                notes := "" |} in
let mapping := [("2990011100000000000", other)] in
let mapping' := (mapping ++ [("1990011100000000000", entry)])%list in
let row := {| row_account_code := "1990011100000000000";
              current_year_actual := 100 |} in
NetPosition.generate_government_wide_net_position [row] mapping
= NetPosition.generate_government_wide_net_position [] mapping /\
Activities.generate_government_wide_activities [row] mapping
= Activities.generate_government_wide_activities [] mapping /\
FundsBalance.generate_governmental_funds_balance [row] mapping
= FundsBalance.generate_governmental_funds_balance [row] mapping' /\
FundsRevExp.generate_governmental_funds_revenues_expenditures [row] mapping
= FundsRevExp.generate_governmental_funds_revenues_expenditures [row] mapping'.
Proof.
intros other entry mapping mapping' row.
destruct (rows_without_mapping_entry mapping [] [] row eq_refl) as [Hnet [Hact Hfunds]].
split; [exact Hnet | split; [exact Hact|]].
apply (Hfunds ltac:(discriminate)).
- intros kv [<-|[]]. reflexivity.
- reflexivity.
- discriminate.
Defined.

(** C2 does not hold for the governmental-funds balance sheet: the row
  below has no mapping entry, and its amount shows under non_major_funds. *)
Lemma funds_balance_counts_unmapped_row :
~ (forall (mapping : Mapping) (before after : DataFrame) (row : Row),
      lookup (row_account_code row) mapping = None ->
      forall l fk,
        (FundsBalance.amount
           (FundsBalance.generate_governmental_funds_balance
              (before ++ row :: after)%list mapping) l fk
         == FundsBalance.amount
              (FundsBalance.generate_governmental_funds_balance
                 (before ++ after)%list mapping) l fk)%Q).
Proof.
intros Hclaim.
pose (other := {| account_code := "2990011100000000000";
                  description := "Account 2990011100000000000";
                  tea_category := "Assets";
                  gasb_category := "current_assets";
                  fund_category := "special_revenue_funds";
                  statement_line := "XX";
                  notes := "" |}).
specialize (Hclaim [("2990011100000000000", other)] [] []
              {| row_account_code := "1990011100000000000";
                 current_year_actual := 100 |}
              eq_refl FundsBalance.cash_and_equivalents non_major_funds).
vm_compute in Hclaim. discriminate.
Qed.

Section AbsentFundKey.
Variable leaf : Type.
Variable leaf_eq_dec : forall a b : leaf, {a = b} + {a <> b}.

Lemma add_other_key (target l : leaf) (fk k : fund_key) (val : Q)
    (statement : Amounts leaf) :
  fk <> k -> add leaf leaf_eq_dec target fk val statement l k = statement l k.
Proof.
  intros Hne. unfold add.
  destruct (leaf_eq_dec target l); [|reflexivity].
  destruct (fund_key_eq_dec fk k); [congruence | reflexivity].
Qed.

Lemma group_of_absent_key (dfv : list VRow) (mask : VRow -> bool) (k : fund_key) :
  (forall r, In r dfv -> v_fund_key r <> k) ->
  filter (fun r => if fund_key_eq_dec (v_fund_key r) k then true else false)
         (filter mask dfv) = [].
Proof.
  intros Habsent. induction dfv as [|r dfv IH]; simpl; [reflexivity|].
  assert (IH' := IH (fun r' Hr' => Habsent r' (or_intror Hr'))).
  destruct (mask r); simpl; [|assumption].
  destruct (fund_key_eq_dec (v_fund_key r) k) as [Heq|_]; [|assumption].
  exfalso. now apply (Habsent r (or_introl eq_refl)).
Qed.

(** [add_sum] leaves alone the column of a fund key that no row carries. *)
Lemma add_sum_absent_key (dfv : list VRow) (mask : VRow -> bool) (target l : leaf)
    (k : fund_key) (statement : Amounts leaf) :
  (forall r, In r dfv -> v_fund_key r <> k) ->
  add_sum leaf leaf_eq_dec dfv mask target statement l k = statement l k.
Proof.
  intros Habsent. unfold add_sum. cbn [fold_left].
  pose proof (group_of_absent_key dfv mask k Habsent) as Hgroup.
  destruct k; rewrite Hgroup; clear Hgroup;
    (destruct (filter _ (filter mask dfv)); [reflexivity|]);
    apply add_other_key; discriminate.
Qed.

Lemma add_sums_absent_key (dfv : list VRow) (calls : list ((VRow -> bool) * leaf))
    (l : leaf) (k : fund_key) :
  (forall r, In r dfv -> v_fund_key r <> k) ->
  forall statement,
    add_sums leaf leaf_eq_dec dfv calls statement l k = statement l k.
Proof.
  intros Habsent. unfold add_sums.
  induction calls as [|call calls IH]; intros statement; simpl; [reflexivity|].
  rewrite IH. now apply add_sum_absent_key.
Qed.

End AbsentFundKey.

(** With an empty mapping every row of [dfv] is a general-fund row. *)
Lemma build_dfv_empty_mapping (df : DataFrame) (r : VRow) :
In r (build_dfv df []) -> v_fund_key r <> non_major_funds.
Proof.
unfold build_dfv. rewrite in_map_iff. intros [row [<- _]]. discriminate.
Qed.



(** ** The statement of revenues, expenditures and changes in fund balances *)

(** C9, as the code has it.  In every generated statement and for each
  fund column, excess_deficiency is total_revenues minus
  total_expenditures, net_change is excess_deficiency plus
  total_other_financing, and the ending balance is the beginning balance
  plus net_change.  For a non-empty row set the beginning balance is the
  constant 25217718 (general_fund) or 4550784 (non_major_funds); for an
  empty row set the generator returns the statement as initialised, with
  a beginning balance of 0. *)
Theorem funds_revenues_expenditures_derived_figures (df : DataFrame) (mapping : Mapping)
  (fk : fund_key) :
let s := FundsRevExp.generate_governmental_funds_revenues_expenditures df mapping in
FundsRevExp.excess_deficiency s fk
= (FundsRevExp.total_revenues s fk - FundsRevExp.total_expenditures s fk)%Q /\
FundsRevExp.net_change s fk
= (FundsRevExp.excess_deficiency s fk + FundsRevExp.total_other_financing s fk)%Q /\
FundsRevExp.ending s fk
= (FundsRevExp.beginning s fk + FundsRevExp.net_change s fk)%Q /\
(df <> [] ->
 FundsRevExp.beginning s general_fund = 25217718%Q /\
 FundsRevExp.beginning s non_major_funds = 4550784%Q) /\
(df = [] -> FundsRevExp.beginning s fk = 0%Q).
Proof.
unfold FundsRevExp.generate_governmental_funds_revenues_expenditures.
destruct df as [|row df].
- cbv zeta. split; [reflexivity | split; [reflexivity | split; [reflexivity|]]].
  split; [intros Hne; congruence | reflexivity].
- cbv zeta. unfold FundsRevExp.calculate_totals.
  cbn [FundsRevExp.excess_deficiency FundsRevExp.total_revenues
       FundsRevExp.total_expenditures FundsRevExp.net_change
       FundsRevExp.total_other_financing FundsRevExp.ending FundsRevExp.beginning].
  split; [reflexivity | split; [reflexivity | split; [reflexivity|]]].
  split; [intros _; split; reflexivity | discriminate].
Qed.

Lemma funds_revenues_expenditures_derived_figures_witness :
let row := {| row_account_code := "1990057110000000000";
              current_year_actual := 2500 |} in
let s := FundsRevExp.generate_governmental_funds_revenues_expenditures [row] [] in
let s0 := FundsRevExp.generate_governmental_funds_revenues_expenditures [] [] in
(FundsRevExp.beginning s general_fund = 25217718%Q /\
 FundsRevExp.beginning s non_major_funds = 4550784%Q) /\
FundsRevExp.beginning s0 general_fund = 0%Q.
Proof.
intros row s s0. split.
- apply (funds_revenues_expenditures_derived_figures [row] [] general_fund).
  discriminate.
- apply (funds_revenues_expenditures_derived_figures [] [] general_fund).
  reflexivity.
Defined.

(** C9 does not hold for an empty row set: the beginning balance of the
  general fund is then 0, not the constant. *)
Lemma funds_revenues_expenditures_empty_beginning :
~ (FundsRevExp.beginning
     (FundsRevExp.generate_governmental_funds_revenues_expenditures [] [])
     general_fund == 25217718)%Q.
Proof.
intros Hclaim. vm_compute in Hclaim. discriminate.
Qed.

(** ** A run of the four generators

    One general-fund row with object code "1110" and amount 5000, mapped to
    current assets. *)

Example cash_row_in_net_position :
  let entry := {| account_code := "1990011100000000000";
                  description := "Account 1990011100000000000";
                  tea_category := "Assets";
                  gasb_category := "current_assets";
                  fund_category := "general_fund";
                  statement_line := "XX";
                  notes := "" |} in
  let s := NetPosition.generate_government_wide_net_position
             [{| row_account_code := "1990011100000000000";
                 current_year_actual := 5000 |}]
             [("1990011100000000000", entry)] in
  NetPosition.amount s NetPosition.cash_and_cash_equivalents = 5000%Q /\
  NetPosition.total_assets s = 5000%Q /\
  NetPosition.balanced s = false.
Proof. vm_compute. repeat split. Qed.

Example cash_row_in_funds_balance :
  let entry := {| account_code := "1990011100000000000";
                  description := "Account 1990011100000000000";
                  tea_category := "Assets";
                  gasb_category := "current_assets";
                  fund_category := "general_fund";
                  statement_line := "XX";
                  notes := "" |} in
  let s := FundsBalance.generate_governmental_funds_balance
             [{| row_account_code := "1990011100000000000";
                 current_year_actual := 5000 |}]
             [("1990011100000000000", entry)] in
  FundsBalance.amount s FundsBalance.cash_and_equivalents general_fund = 5000%Q /\
  FundsBalance.amount s FundsBalance.cash_and_equivalents non_major_funds = 0%Q /\
  FundsBalance.total_assets s general_fund = 5000%Q.
Proof. vm_compute. repeat split. Qed.

(** * Further properties of the classifier *)

Lemma substring_length (s : string) : forall n m,
  n + m <= String.length s -> String.length (substring n m s) = m.
Proof.
  induction s as [|a s IH]; intros n m Hlen; simpl in *.
  - destruct n, m; simpl; lia.
  - destruct n as [|n].
    + destruct m as [|m]; simpl; [reflexivity|]. rewrite IH; lia.
    + apply IH. lia.
Qed.

Lemma substring_head (s : string) : forall n m,
  n < String.length s ->
  exists a rest, get n s = Some a /\ substring n (S m) s = String a rest.
Proof.
  induction s as [|a s IH]; intros n m Hlen; simpl in *.
  - lia.
  - destruct n as [|n].
    + eauto.
    + apply IH. lia.
Qed.

Lemma is_digit_cases (c : ascii) :
  is_digit c = true ->
  In c ["0"; "1"; "2"; "3"; "4"; "5"; "6"; "7"; "8"; "9"]%char.
Proof.
  destruct c as [[] [] [] [] [] [] [] []]; intros H; try discriminate H;
    simpl; tauto.
Qed.



(** Every listed code sits in the category that the prefix rule gives it,
    the clearing accounts apart. *)
Lemma gasb_table_agrees_with_prefix_rule :
  forallb
    (fun entry =>
       forallb
         (fun code =>
            if mem code Reference.clearing_codes then fst entry =? "clearing_accounts"
            else Spec.gasb_prefix_rule code =? fst entry)
         (tea_codes (snd entry)))
    GASB_CATEGORIES = true.
Proof. vm_compute. reflexivity. Qed.

Lemma clearing_codes_listed (object_code : string) :
  first_category tea_codes GASB_CATEGORIES object_code = None ->
  mem object_code Reference.clearing_codes = false.
Proof.
  unfold first_category.
  destruct (find _ GASB_CATEGORIES) as [[c d]|] eqn:Hfind; [discriminate|].
  intros _.
  destruct (mem object_code Reference.clearing_codes) eqn:Hmem; [|reflexivity].
  assert (Hin : In ("clearing_accounts",
                    {| gasb_description := "Clearing Accounts";
                       tea_codes := Reference.clearing_codes |}) GASB_CATEGORIES).
  { vm_compute. tauto. }
  apply (find_none _ _ Hfind) in Hin. cbn [snd tea_codes] in Hin. congruence.
Qed.

(** The code of [get_gasb_category] on an object code. *)
Lemma gasb_category_of_object_code (account_code : string) :
  9 <= String.length account_code ->
  get_gasb_category account_code
  = if mem (slice account_code 5 9) Reference.clearing_codes then "clearing_accounts"
    else Spec.gasb_prefix_rule (slice account_code 5 9).
Proof.
  intros Hlen. unfold get_gasb_category.
  apply Nat.leb_le in Hlen. rewrite Hlen.
  generalize (slice account_code 5 9) as object_code. intros object_code.
  destruct (first_category tea_codes GASB_CATEGORIES object_code) as [category|] eqn:Hfirst.
  - unfold first_category in Hfirst.
    destruct (find _ GASB_CATEGORIES) as [[c d]|] eqn:Hfind; [|discriminate].
    injection Hfirst as ->.
    apply find_some in Hfind. destruct Hfind as [Hentry Hcode].
    pose proof gasb_table_agrees_with_prefix_rule as Htable.
    rewrite forallb_forall in Htable. specialize (Htable _ Hentry).
    rewrite forallb_forall in Htable. cbn [snd] in Hcode.
    apply mem_true_iff in Hcode. specialize (Htable _ Hcode). cbn [fst] in Htable.
    destruct (mem object_code Reference.clearing_codes);
      apply String.eqb_eq in Htable; congruence.
  - rewrite (clearing_codes_listed _ Hfirst).
    apply gasb_fallback_is_prefix_rule.
Qed.

(** X2. The exact-match table of [get_gasb_category] never overrules its
    prefix rules, except for the listed clearing accounts: on a code of at
    least 9 characters the category is "clearing_accounts" when the object
    code is one of the listed 4xx0 codes, and otherwise the category that
    the prefix rules give to the object code. *)
Theorem gasb_category_is_prefix_rule_or_clearing (account_code : string) :
  9 <= String.length account_code ->
  let object_code := slice account_code 5 9 in
  (In object_code Reference.clearing_codes ->
   get_gasb_category account_code = "clearing_accounts") /\
  (~ In object_code Reference.clearing_codes ->
   get_gasb_category account_code = Spec.gasb_prefix_rule object_code).
Proof.
  intros Hlen object_code. subst object_code.
  rewrite (gasb_category_of_object_code account_code Hlen). split.
  - intros Hin. apply mem_true_iff in Hin. now rewrite Hin.
  - intros Hout. apply mem_false_iff in Hout. now rewrite Hout.
Qed.

Lemma gasb_category_is_prefix_rule_or_clearing_witness :
  get_gasb_category "1990041200000000000" = "clearing_accounts" /\
  get_gasb_category "1990033100000000000"
  = Spec.gasb_prefix_rule (slice "1990033100000000000" 5 9).
Proof.
  split.
  - apply (gasb_category_is_prefix_rule_or_clearing "1990041200000000000").
    + simpl. lia.
    + apply mem_true_iff. reflexivity.
  - apply (gasb_category_is_prefix_rule_or_clearing "1990033100000000000").
    + simpl. lia.
    + apply mem_false_iff. reflexivity.
Defined.

Lemma prefix_one (x : ascii) (s : string) :
  prefix (String x "") s = true -> exists rest, s = String x rest.
Proof.
  destruct s as [|a rest]; simpl; [discriminate|].
  destruct (ascii_dec x a) as [->|]; [|discriminate].
  intros _. now exists rest.
Qed.

Lemma clearing_codes_start_with_4 (object_code : string) :
  mem object_code Reference.clearing_codes = true ->
  exists rest, object_code = String "4" rest.
Proof.
  intros Hmem. apply mem_true_iff in Hmem.
  assert (Hall : forallb (fun code => startswith code "4") Reference.clearing_codes = true)
    by (vm_compute; reflexivity).
  rewrite forallb_forall in Hall. specialize (Hall _ Hmem).
  now apply prefix_one.
Qed.

(** The major class of what the prefix rule returns is decided by the
    leading character. *)
Lemma major_class_of_prefix_rule (a : ascii) (rest : string) :
  Spec.gasb_prefix_rule (String a rest) <> "unknown" ->
  Some (get_default TEA_OBJECT_CATEGORIES (String a "") "Unknown")
  = lookup (Spec.gasb_prefix_rule (String a rest)) Reference.major_class.
Proof.
  unfold Spec.gasb_prefix_rule.
  generalize (Spec.leading_two_digits (String a rest)) as p. intros p.
  destruct a as [[] [] [] [] [] [] [] []];
    cbv -[Spec.prefix_in]; case_tests; intros Hknown;
    try reflexivity; exfalso; apply Hknown; reflexivity.
Qed.

(** X3. The two classifiers agree on the major class: whenever
    [get_gasb_category] knows the code, [get_tea_category] returns the TEA
    object category under which that GASB category falls. *)
Theorem tea_category_is_major_class_of_gasb (account_code : string) :
  9 <= String.length account_code ->
  get_gasb_category account_code <> "unknown" ->
  get_tea_category account_code
  = lookup (get_gasb_category account_code) Reference.major_class.
Proof.
  intros Hlen. rewrite (gasb_category_of_object_code account_code Hlen).
  unfold get_tea_category, item, slice.
  destruct (substring_head account_code 5 3) as [a [rest [Hget Hsub]]]; [lia|].
  apply Nat.leb_le in Hlen. rewrite Hlen, Hget. simpl Nat.sub. rewrite Hsub.
  destruct (mem (String a rest) Reference.clearing_codes) eqn:Hclearing.
  - apply clearing_codes_start_with_4 in Hclearing.
    destruct Hclearing as [rest' Heq]. injection Heq as Ha _. subst a. reflexivity.
  - apply major_class_of_prefix_rule.
Qed.

Lemma tea_category_is_major_class_of_gasb_witness :
  get_tea_category "1990025010000000000"
  = lookup (get_gasb_category "1990025010000000000") Reference.major_class.
Proof.
  apply (tea_category_is_major_class_of_gasb "1990025010000000000").
  - simpl. lia.
  - vm_compute. discriminate.
Defined.

(** * Auto-mapping and validation *)

Import DefaultMapping.

Lemma get_tea_category_returns (account_code : string) :
  exists tea, get_tea_category account_code = Some tea.
Proof.
  unfold get_tea_category, item.
  destruct (Nat.leb_spec 9 (String.length account_code)) as [Hlen|_]; [|eauto].
  destruct (get_in_range account_code 5) as [c Hc]; [lia|].
  rewrite Hc. eauto.
Qed.

Lemma gasb_category_enumerated (account_code : string) :
  In (get_gasb_category account_code) Spec.gasb_names.
Proof.
  unfold get_gasb_category.
  destruct (Nat.leb 9 (String.length account_code));
    [|apply mem_true_iff; reflexivity].
  destruct (first_category tea_codes GASB_CATEGORIES _) as [category|] eqn:Hfirst.
  - apply first_category_in in Hfirst. unfold Spec.gasb_names.
    apply in_or_app. now left.
  - case_tests; apply mem_true_iff; reflexivity.
Qed.

Lemma gasb_category_not_empty (account_code : string) :
  get_gasb_category account_code <> "".
Proof.
  intros Hempty. pose proof (gasb_category_enumerated account_code) as Hin.
  rewrite Hempty in Hin. apply mem_true_iff in Hin. vm_compute in Hin. discriminate.
Qed.

Lemma set_add_fold_in (codes : list string) : forall seen code,
  In code (fold_left (fun seen code => set_add code seen) codes seen) <->
  In code seen \/ In code codes.
Proof.
  induction codes as [|c codes IH]; intros seen code; simpl.
  - tauto.
  - rewrite IH, set_add_in. intuition congruence.
Qed.

Lemma set_add_nodup (code : string) (seen : list string) :
  NoDup seen -> NoDup (set_add code seen).
Proof.
  intros Hnodup. unfold set_add. destruct (mem code seen) eqn:Hmem; [assumption|].
  apply mem_false_iff in Hmem.
  apply NoDup_app; [assumption | repeat constructor; auto |].
  intros x Hx [<-|[]]. contradiction.
Qed.

Lemma set_add_fold_nodup (codes : list string) : forall seen,
  NoDup seen -> NoDup (fold_left (fun seen code => set_add code seen) codes seen).
Proof.
  induction codes as [|c codes IH]; intros seen Hnodup; simpl; [assumption|].
  apply IH. now apply set_add_nodup.
Qed.

Lemma distinct_in (codes : list string) (code : string) :
  In code (Reference.distinct codes) <-> In code codes.
Proof. unfold Reference.distinct. rewrite set_add_fold_in. simpl. tauto. Qed.

(** Storing the default entry of a code in a dictionary of default entries. *)
Lemma dict_set_default_entry (code : string) (seen : list string) :
  dict_set code (Reference.default_entry code)
           (map (fun c => (c, Reference.default_entry c)) seen)
  = map (fun c => (c, Reference.default_entry c)) (set_add code seen).
Proof.
  unfold set_add. induction seen as [|c seen IH]; simpl; [reflexivity|].
  destruct (String.eqb_spec code c) as [->|Hne]; simpl; [reflexivity|].
  rewrite IH. unfold mem. destruct (existsb (String.eqb code) seen); reflexivity.
Qed.

(** The mapping built by [create_default_mapping]: the default entries of
    the distinct codes, in the order of their first occurrence. *)
Lemma create_default_mapping_result (account_codes : list string) :
  create_default_mapping account_codes
  = Some (map (fun c => (c, Reference.default_entry c))
              (Reference.distinct account_codes)).
Proof.
  unfold create_default_mapping, Reference.distinct.
  change (Some (@nil (string * MappingEntry)))
    with (Some (map (fun c => (c, Reference.default_entry c)) [])).
  generalize (@nil string) as seen.
  induction account_codes as [|code codes IH]; intros seen; simpl; [reflexivity|].
  rewrite <- IH. f_equal.
  rewrite <- dict_set_default_entry. unfold Reference.default_entry.
  destruct (get_tea_category_returns code) as [tea ->]. reflexivity.
Qed.

Lemma lookup_default_entries (codes : list string) (code : string) :
  lookup code (map (fun c => (c, Reference.default_entry c)) codes)
  = if mem code codes then Some (Reference.default_entry code) else None.
Proof.
  unfold mem. induction codes as [|c codes IH]; simpl; [reflexivity|].
  destruct (String.eqb_spec code c) as [->|Hne]; simpl; [reflexivity | assumption].
Qed.

(** X4. [create_default_mapping] never raises.  The mapping it returns has
    exactly the codes of the list as keys, each once, and stores under
    every code the output of the three classifiers, the description
    "Account <code>" and the placeholder line "XX". *)
Theorem create_default_mapping_entries (account_codes : list string) :
  exists mapping,
    create_default_mapping account_codes = Some mapping /\
    NoDup (map fst mapping) /\
    (forall code, In code (map fst mapping) <-> In code account_codes) /\
    (forall code,
        In code account_codes ->
        exists entry,
          lookup code mapping = Some entry /\
          account_code entry = code /\
          description entry = "Account " ++ code /\
          get_tea_category code = Some (tea_category entry) /\
          gasb_category entry = get_gasb_category code /\
          fund_category entry = get_fund_category code /\
          statement_line entry = "XX" /\
          notes entry = "") /\
    (forall code, ~ In code account_codes -> lookup code mapping = None).
Proof.
  eexists. split; [apply create_default_mapping_result|].
  rewrite map_map. cbn [fst]. rewrite map_id.
  split; [|split; [|split]].
  - apply set_add_fold_nodup. constructor.
  - intros code. apply distinct_in.
  - intros code Hin. exists (Reference.default_entry code).
    rewrite lookup_default_entries.
    apply distinct_in, mem_true_iff in Hin. rewrite Hin.
    repeat split. unfold Reference.default_entry. cbn [tea_category].
    now destruct (get_tea_category_returns code) as [tea ->].
  - intros code Hout. rewrite lookup_default_entries.
    rewrite <- distinct_in in Hout. apply mem_false_iff in Hout. now rewrite Hout.
Qed.

Lemma set_add_fold_absorb (more : list string) : forall seen,
  (forall code, In code more -> In code seen) ->
  fold_left (fun seen code => set_add code seen) more seen = seen.
Proof.
  induction more as [|c more IH]; intros seen Hseen; simpl; [reflexivity|].
  assert (Hc : set_add c seen = seen).
  { unfold set_add. assert (In c seen) as Hin by (apply Hseen; now left).
    apply mem_true_iff in Hin. now rewrite Hin. }
  rewrite Hc. apply IH. intros code Hin. apply Hseen. now right.
Qed.

(** X5. Auto-mapping is insensitive to repetition: codes that already
    occur in the list may be appended to it without changing the mapping
    that [create_default_mapping] returns. *)
Theorem create_default_mapping_repeated_codes (account_codes more : list string) :
  incl more account_codes ->
  create_default_mapping (account_codes ++ more)%list
  = create_default_mapping account_codes.
Proof.
  intros Hincl. repeat rewrite create_default_mapping_result.
  do 2 f_equal. unfold Reference.distinct. rewrite fold_left_app.
  apply set_add_fold_absorb. intros code Hin.
  apply set_add_fold_in. right. now apply Hincl.
Qed.

Lemma create_default_mapping_repeated_codes_witness :
  create_default_mapping
    (["1990011100000000000"; "2990057110000000000"] ++ ["1990011100000000000"])%list
  = create_default_mapping ["1990011100000000000"; "2990057110000000000"].
Proof.
  apply create_default_mapping_repeated_codes.
  intros code [<-|[]]. now left.
Defined.

Lemma filter_nil_iff {A : Type} (f : A -> bool) (l : list A) :
  filter f l = [] <-> forall x, In x l -> f x = false.
Proof.
  induction l as [|a l IH]; simpl.
  - split; [intros _ x [] | reflexivity].
  - destruct (f a) eqn:Hfa.
    + split; [discriminate|]. intros H. specialize (H a (or_introl eq_refl)). congruence.
    + rewrite IH. split.
      * intros H x [<-|Hx]; auto.
      * intros H x Hx. apply H. now right.
Qed.

(** X6. Validation of an auto-mapped ledger: the mapping that
    [create_default_mapping] builds is reported valid exactly when every
    code of the list passes the format check and is given a GASB category
    other than "unknown". *)
Theorem auto_mapping_valid_iff (account_codes : list string) (mapping : Mapping) :
  create_default_mapping account_codes = Some mapping ->
  (valid (validate_mapping mapping) = true <->
   forall code,
     In code account_codes ->
     validate_account_code code = true /\ get_gasb_category code <> "unknown").
Proof.
  rewrite create_default_mapping_result. intros [= <-].
  pose proof (validate_loop
                (map (fun c => (c, Reference.default_entry c))
                     (Reference.distinct account_codes))
                {| st_mapped := []; st_unmapped := []; st_invalid := [] |}) as Hloop.
  cbv zeta in Hloop. destruct Hloop as [Hinv [Hunm _]].
  unfold validate_mapping. cbn [valid]. rewrite Hinv, Hunm. cbn [st_invalid st_unmapped app].
  repeat rewrite length_map.
  rewrite andb_true_iff. repeat rewrite Nat.eqb_eq. repeat rewrite length_zero_iff_nil.
  unfold Spec.unmapped_entries, Spec.invalid_entries, Spec.checked_entries.
  repeat rewrite filter_nil_iff.
  split.
  - intros [Hunmapped Hinvalid] code Hin.
    apply (proj2 (distinct_in _ _)) in Hin.
    assert (Hkv : In (code, Reference.default_entry code)
                     (map (fun c => (c, Reference.default_entry c))
                          (Reference.distinct account_codes)))
      by (apply in_map_iff; eauto).
    pose proof (Hinvalid _ Hkv) as Hvalid. cbn [fst] in Hvalid.
    apply negb_false_iff in Hvalid. split; [assumption|].
    intros Hunknown.
    assert (Hchecked : In (code, Reference.default_entry code)
                          (filter (fun kv => validate_account_code (fst kv))
                                  (map (fun c => (c, Reference.default_entry c))
                                       (Reference.distinct account_codes))))
      by (apply filter_In; auto).
    specialize (Hunmapped _ Hchecked).
    unfold Spec.category_missing in Hunmapped. cbn [snd Reference.default_entry gasb_category]
      in Hunmapped.
    rewrite Hunknown in Hunmapped. discriminate.
  - intros Hall. split.
    + intros [code entry] Hkv. apply filter_In in Hkv. destruct Hkv as [Hkv _].
      apply in_map_iff in Hkv. destruct Hkv as [c [Heq Hc]].
      injection Heq as Hcode Hentry. subst code entry.
      apply (proj1 (distinct_in _ _)) in Hc. destruct (Hall _ Hc) as [_ Hknown].
      unfold Spec.category_missing. cbn [snd Reference.default_entry gasb_category].
      apply orb_false_iff. split; apply String.eqb_neq;
        [apply gasb_category_not_empty | assumption].
    + intros [code entry] Hkv.
      apply in_map_iff in Hkv. destruct Hkv as [c [Heq Hc]].
      injection Heq as Hcode Hentry. subst code entry.
      apply (proj1 (distinct_in _ _)) in Hc. destruct (Hall _ Hc) as [Hvalid _].
      cbn [fst]. now rewrite Hvalid.
Qed.

Lemma auto_mapping_valid_iff_witness :
  valid (validate_mapping
           (map (fun c => (c, Reference.default_entry c))
                (Reference.distinct ["1990011100000000000"]))) = true <->
  forall code,
    In code ["1990011100000000000"] ->
    validate_account_code code = true /\ get_gasb_category code <> "unknown".
Proof.
  apply (auto_mapping_valid_iff ["1990011100000000000"]).
  reflexivity.
Defined.

(** * Account code components *)

Lemma substring_split (s : string) : forall n a b,
  substring n (a + b) s = substring n a s ++ substring (n + a) b s.
Proof.
  induction s as [|c s IH]; intros n a b.
  - destruct n, a, b; reflexivity.
  - destruct n as [|n].
    + destruct a as [|a].
      * reflexivity.
      * simpl. f_equal. apply (IH 0).
    + simpl. apply IH.
Qed.

Lemma substring_all (s : string) : substring 0 (String.length s) s = s.
Proof. induction s as [|c s IH]; simpl; [reflexivity | now rewrite IH]. Qed.

Lemma all_digits_zeros : all_digits "000" = true /\ all_digits "00" = true
                         /\ all_digits "0000" = true.
Proof. repeat split. Qed.

(** X7. [get_account_components] always returns components of the widths
    of the layout, 3, 2 and 4, made of digits only.  For a code that
    passes the format check they are the first nine characters of the
    code, cut at 3 and 5, and there is no error; for any other code they
    are the zero defaults, with the error message of the check. *)
Theorem account_components_fixed_width (account_code : string) :
  let c := get_account_components account_code in
  String.length (DefaultMapping.fund_code c) = 3 /\
  String.length (DefaultMapping.function_code c) = 2 /\
  String.length (DefaultMapping.object_code c) = 4 /\
  isdigit (DefaultMapping.fund_code c) = true /\
  isdigit (DefaultMapping.function_code c) = true /\
  isdigit (DefaultMapping.object_code c) = true /\
  full_code c = account_code /\
  (validate_account_code account_code = true ->
   error c = None /\
   DefaultMapping.fund_code c ++ DefaultMapping.function_code c
     ++ DefaultMapping.object_code c = slice account_code 0 9) /\
  (validate_account_code account_code = false ->
   exists message,
     error c = Some message /\
     DefaultMapping.fund_code c = "000" /\
     DefaultMapping.function_code c = "00" /\
     DefaultMapping.object_code c = "0000").
Proof.
  unfold get_account_components, validate_account_code_result, validate_account_code.
  destruct (Nat.ltb_spec (String.length account_code) 9) as [Hshort|Hlong].
  - cbv zeta. cbn. repeat split; try reflexivity; try discriminate. eauto 10.
  - destruct (isdigit (slice account_code 0 3)) eqn:Hfund;
      destruct (isdigit (slice account_code 3 5)) eqn:Hfunction;
      destruct (isdigit (slice account_code 5 9)) eqn:Hobject;
      cbv zeta;
      cbn [negb orb DefaultMapping.fund_code DefaultMapping.function_code
           DefaultMapping.object_code full_code error];
      try (repeat split; try reflexivity; try discriminate; eauto 10; fail).
    unfold slice in *. cbn [Nat.sub] in *.
    repeat split; try assumption; try discriminate.
    + apply substring_length. lia.
    + apply substring_length. lia.
    + apply substring_length. lia.
    + pose proof (substring_split account_code 0 3 6) as Hcut3.
      pose proof (substring_split account_code 3 2 4) as Hcut5.
      cbn [Nat.add] in Hcut3, Hcut5. now rewrite Hcut3, Hcut5.
Qed.

Lemma account_components_fixed_width_witness :
  let c := get_account_components "1990011100000123456" in
  error c = None /\
  DefaultMapping.fund_code c ++ DefaultMapping.function_code c
    ++ DefaultMapping.object_code c = slice "1990011100000123456" 0 9.
Proof.
  intros c.
  apply (account_components_fixed_width "1990011100000123456").
  reflexivity.
Defined.

(** * The audit trail *)

(** X8. The account code breakdown of an audit record always has the
    widths 3, 2, 4, 4 and 6 of the layout, whatever the length of the
    code, and for a code of 19 characters the five segments put together
    give back the code. *)
Theorem audit_segments_fixed_width (mappings : Mapping) (row : Row) :
  let r := AuditExport.audit_record mappings row in
  String.length (AuditExport.fund_code r) = 3 /\
  String.length (AuditExport.function_code r) = 2 /\
  String.length (AuditExport.object_code r) = 4 /\
  String.length (AuditExport.sub_object_code r) = 4 /\
  String.length (AuditExport.location_code r) = 6 /\
  (String.length (row_account_code row) = 19 ->
   AuditExport.fund_code r ++ AuditExport.function_code r ++ AuditExport.object_code r
     ++ AuditExport.sub_object_code r ++ AuditExport.location_code r
   = row_account_code row).
Proof.
  unfold AuditExport.audit_record.
  destruct (lookup (row_account_code row) mappings);
    cbv zeta;
    cbn [AuditExport.fund_code AuditExport.function_code AuditExport.object_code
         AuditExport.sub_object_code AuditExport.location_code].
  all: unfold slice; cbn [Nat.sub].
  all: split; [destruct (Nat.leb_spec 3 (String.length (row_account_code row)));
               [apply substring_length; lia | reflexivity]|].
  all: split; [destruct (Nat.leb_spec 5 (String.length (row_account_code row)));
               [apply substring_length; lia | reflexivity]|].
  all: split; [destruct (Nat.leb_spec 9 (String.length (row_account_code row)));
               [apply substring_length; lia | reflexivity]|].
  all: split; [destruct (Nat.leb_spec 13 (String.length (row_account_code row)));
               [apply substring_length; lia | reflexivity]|].
  all: split; [destruct (Nat.leb_spec 19 (String.length (row_account_code row)));
               [apply substring_length; lia | reflexivity]|].
  all: intros Hlen; rewrite Hlen; cbn [Nat.leb].
  all: pose proof (substring_split (row_account_code row) 0 3 16) as Hcut3;
    pose proof (substring_split (row_account_code row) 3 2 14) as Hcut5;
    pose proof (substring_split (row_account_code row) 5 4 10) as Hcut9;
    pose proof (substring_split (row_account_code row) 9 4 6) as Hcut13;
    cbn [Nat.add] in Hcut3, Hcut5, Hcut9, Hcut13.
  all: rewrite <- Hcut13, <- Hcut9, <- Hcut5, <- Hcut3.
  all: rewrite <- Hlen; apply substring_all.
Qed.

Lemma audit_segments_fixed_width_witness :
  let mappings := [("2990011100000000000", Reference.default_entry "2990011100000000000")] in
  let r := AuditExport.audit_record mappings
             {| row_account_code := "1990011100000123456";
                current_year_actual := 100 |} in
  AuditExport.fund_code r ++ AuditExport.function_code r ++ AuditExport.object_code r
    ++ AuditExport.sub_object_code r ++ AuditExport.location_code r
  = "1990011100000123456".
Proof.
  intros mappings r.
  apply (audit_segments_fixed_width mappings
           {| row_account_code := "1990011100000123456";
              current_year_actual := 100 |}).
  reflexivity.
Defined.

(** X9. A row is flagged unmapped exactly when its code has no mapping
    entry.  Its record then carries "Unmapped" for the three categories,
    the method "unmapped" with confidence "none", no statement line
    ("Unknown", "XX", "Unmapped Account") and no rollup.  A row with an
    entry carries the categories of the entry, the method "auto_mapped"
    and the confidence "medium". *)
Theorem audit_record_of_unmapped_row (mappings : Mapping) (row : Row) :
  let r := AuditExport.audit_record mappings row in
  (AuditExport.unmapped_accounts r = true <-> lookup (row_account_code row) mappings = None) /\
  (lookup (row_account_code row) mappings = None ->
   AuditExport.tea_category r = "Unmapped" /\
   AuditExport.gasb_category r = "Unmapped" /\
   AuditExport.fund_category r = "Unmapped" /\
   AuditExport.mapping_method r = "unmapped" /\
   AuditExport.mapping_confidence r = "none" /\
   AuditExport.processing_notes r = "Account not mapped" /\
   AuditExport.statement r = AuditExport.info "Unknown" "Unknown" ("XX", "Unmapped Account") /\
   AuditExport.rollup r = {| rollup_applied := false; rollup_description := "" |}) /\
  (forall entry,
      lookup (row_account_code row) mappings = Some entry ->
      AuditExport.tea_category r = MappingRules.tea_category entry /\
      AuditExport.gasb_category r = MappingRules.gasb_category entry /\
      AuditExport.fund_category r = MappingRules.fund_category entry /\
      AuditExport.mapping_method r = "auto_mapped" /\
      AuditExport.mapping_confidence r = "medium" /\
      AuditExport.processing_notes r = "").
Proof.
  unfold AuditExport.audit_record.
  destruct (lookup (row_account_code row) mappings) as [entry|]; cbv zeta;
    cbn [AuditExport.unmapped_accounts AuditExport.tea_category
         AuditExport.gasb_category AuditExport.fund_category
         AuditExport.mapping_method AuditExport.mapping_confidence
         AuditExport.processing_notes AuditExport.statement AuditExport.rollup].
  - split; [split; discriminate|]. split; [discriminate|].
    intros entry' [= <-]. repeat split.
  - split; [split; reflexivity|]. split; [|discriminate].
    intros _. repeat split.
Qed.

Lemma audit_record_of_unmapped_row_witness :
  let mappings := [("2990011100000000000", Reference.default_entry "2990011100000000000")] in
  let r := AuditExport.audit_record mappings
             {| row_account_code := "1990011100000123456";
                current_year_actual := 100 |} in
  AuditExport.statement r = AuditExport.info "Unknown" "Unknown" ("XX", "Unmapped Account") /\
  AuditExport.rollup r = {| rollup_applied := false; rollup_description := "" |}.
Proof.
  intros mappings r.
  destruct (audit_record_of_unmapped_row
              mappings {| row_account_code := "1990011100000123456";
                          current_year_actual := 100 |}) as [_ [Hunmapped _]].
  apply Hunmapped. reflexivity.
Defined.

(** ** The audit trail and the Statement of Net Position *)

Ltac eval_prefix_rule :=
  match goal with
  | |- context [Spec.gasb_prefix_rule ?s] =>
    let v := eval vm_compute in (Spec.gasb_prefix_rule s) in
    change (Spec.gasb_prefix_rule s) with v
  end.

Lemma not_clearing_code (x : ascii) (rest : string) :
  x <> "4"%char -> mem (String x rest) Reference.clearing_codes = false.
Proof.
  intros Hx. destruct (mem (String x rest) Reference.clearing_codes) eqn:Hmem;
    [|reflexivity].
  apply clearing_codes_start_with_4 in Hmem. destruct Hmem as [rest' Heq].
  injection Heq as Hx' _. contradiction.
Qed.

(** X10. The audit trail names the line that the aggregator credits.  For
    a row mapped by the classifier (its entry carries the GASB category of
    [get_gasb_category]) whose object code lies in a branch of the
    Statement of Net Position, the audit record says "Net Position" and
    gives the code and description of the very line item to which
    [generate_government_wide_net_position] adds the amount of the row. *)
Theorem audit_line_is_credited_line (mappings : Mapping)
    (statement : NetPosition.Amounts) (row : Row) (entry : MappingEntry) :
  lookup (row_account_code row) mappings = Some entry ->
  gasb_category entry = get_gasb_category (row_account_code row) ->
  9 <= String.length (row_account_code row) ->
  startswith_any (slice (row_account_code row) 5 9) Spec.net_position_branches = true ->
  let info := AuditExport.statement (AuditExport.audit_record mappings row) in
  exists l,
    NetPosition.process_row mappings statement row
    = NetPosition.add l (current_year_actual row) statement /\
    AuditExport.statement_type info = "Net Position" /\
    (AuditExport.statement_line_code info, AuditExport.statement_line_description info)
    = AuditExport.net_position_line l.
Proof.
  intros Hentry Hgasb Hlen.
  unfold AuditExport.audit_record, NetPosition.process_row.
  rewrite Hentry. cbv zeta. cbn [AuditExport.statement].
  rewrite Hgasb, (gasb_category_of_object_code _ Hlen).
  apply Nat.leb_le in Hlen. rewrite Hlen.
  generalize (slice (row_account_code row) 5 9) as object_code.
  generalize (if Nat.leb 5 (String.length (row_account_code row))
              then slice (row_account_code row) 3 5 else "00") as function_code.
  intros function_code object_code Hbranch.
  unfold Spec.net_position_branches, startswith_any, startswith in Hbranch.
  cbn [existsb] in Hbranch.
  repeat (apply orb_true_iff in Hbranch; destruct Hbranch as [Hbranch|Hbranch]);
    try discriminate;
    apply prefix_two in Hbranch; destruct Hbranch as [rest ->];
    (rewrite not_clearing_code; [|discriminate]);
    eval_prefix_rule; destruct rest;
    cbn -[NetPosition.add]; case_tests; eexists; repeat split; reflexivity.
Qed.

Lemma audit_line_is_credited_line_witness :
  let entry := Reference.default_entry "1990015990000000000" in
  let row := {| row_account_code := "1990015990000000000";
                current_year_actual := 750 |} in
  let mappings := [("1990015990000000000", entry)] in
  let info := AuditExport.statement (AuditExport.audit_record mappings row) in
  exists l,
    NetPosition.process_row mappings NetPosition.template row
    = NetPosition.add l 750 NetPosition.template /\
    AuditExport.statement_type info = "Net Position" /\
    (AuditExport.statement_line_code info, AuditExport.statement_line_description info)
    = AuditExport.net_position_line l.
Proof.
  intros entry row mappings info.
  apply (audit_line_is_credited_line mappings NetPosition.template row entry).
  - reflexivity.
  - reflexivity.
  - simpl. lia.
  - reflexivity.
Defined.

(** X11. Restricted net position outside 38xx: for a row mapped by the
    classifier whose object code begins with 33, 34, 35, 36 or 37 the
    audit record names line 3820, State and Federal Programs, of the
    Statement of Net Position, while
    [generate_government_wide_net_position] adds the amount of the row to
    no line item. *)
Theorem restricted_33_to_37_named_but_not_credited (mappings : Mapping)
    (statement : NetPosition.Amounts) (row : Row) (entry : MappingEntry) :
  lookup (row_account_code row) mappings = Some entry ->
  gasb_category entry = get_gasb_category (row_account_code row) ->
  9 <= String.length (row_account_code row) ->
  startswith_any (slice (row_account_code row) 5 9) ["33"; "34"; "35"; "36"; "37"] = true ->
  let info := AuditExport.statement (AuditExport.audit_record mappings row) in
  NetPosition.process_row mappings statement row = statement /\
  AuditExport.statement_type info = "Net Position" /\
  AuditExport.statement_section info = "NET POSITION" /\
  AuditExport.statement_line_code info = "3820" /\
  AuditExport.statement_line_description info = "State and Federal Programs".
Proof.
  intros Hentry Hgasb Hlen.
  unfold AuditExport.audit_record, NetPosition.process_row.
  rewrite Hentry. cbv zeta. cbn [AuditExport.statement].
  rewrite Hgasb, (gasb_category_of_object_code _ Hlen).
  apply Nat.leb_le in Hlen. rewrite Hlen.
  generalize (slice (row_account_code row) 5 9) as object_code.
  generalize (if Nat.leb 5 (String.length (row_account_code row))
              then slice (row_account_code row) 3 5 else "00") as function_code.
  intros function_code object_code Hbranch.
  unfold startswith_any, startswith in Hbranch.
  cbn [existsb] in Hbranch.
  repeat (apply orb_true_iff in Hbranch; destruct Hbranch as [Hbranch|Hbranch]);
    try discriminate;
    apply prefix_two in Hbranch; destruct Hbranch as [rest ->];
    (rewrite not_clearing_code; [|discriminate]);
    eval_prefix_rule; destruct rest;
    cbn -[NetPosition.add]; case_tests; repeat split; reflexivity.
Qed.

Lemma restricted_33_to_37_named_but_not_credited_witness :
  let entry := Reference.default_entry "1990034100000000000" in
  let row := {| row_account_code := "1990034100000000000";
                current_year_actual := 900 |} in
  let mappings := [("1990034100000000000", entry)] in
  let info := AuditExport.statement (AuditExport.audit_record mappings row) in
  NetPosition.process_row mappings NetPosition.template row = NetPosition.template /\
  AuditExport.statement_type info = "Net Position" /\
  AuditExport.statement_section info = "NET POSITION" /\
  AuditExport.statement_line_code info = "3820" /\
  AuditExport.statement_line_description info = "State and Federal Programs".
Proof.
  intros entry row mappings info.
  apply (restricted_33_to_37_named_but_not_credited
           mappings NetPosition.template row entry).
  - reflexivity.
  - reflexivity.
  - simpl. lia.
  - reflexivity.
Defined.

Lemma gasb_category_never_unmapped (account_code : string) :
  get_gasb_category account_code <> "Unmapped".
Proof.
  intros Heq. pose proof (gasb_category_enumerated account_code) as Hin.
  rewrite Heq in Hin. apply mem_true_iff in Hin. vm_compute in Hin. discriminate.
Qed.

Ltac use_exceptions H :=
  apply negb_true_iff in H; cbn in H;
  repeat (apply orb_false_iff in H; let H' := fresh "Hne" in destruct H as [H' H]);
  repeat match goal with
         | Hne : ?b = false |- context [if ?b then _ else _] => rewrite Hne
         end.

(** X12. Rollup and statement line tell the same story.  For a code of at
    least 9 characters classified by [get_gasb_category], whenever
    [get_rollup_information] reports a rollup, its description is
    "Rolled up into " followed by the description of the statement line
    that [get_statement_mapping_info] resolves for the same code. *)
Theorem rollup_description_names_statement_line (account_code function_code : string) :
  9 <= String.length account_code ->
  let gasb := get_gasb_category account_code in
  let object_code := slice account_code 5 9 in
  let rollup := get_rollup_information account_code gasb object_code in
  let line :=
    AuditExport.get_statement_mapping_info account_code gasb object_code function_code in
  rollup_applied rollup = true ->
  rollup_description rollup
  = "Rolled up into " ++ AuditExport.statement_line_description line.
Proof.
  intros Hlen. cbv zeta. unfold get_rollup_information.
  pose proof (gasb_category_never_unmapped account_code) as Hmapped.
  apply String.eqb_neq in Hmapped. rewrite Hmapped.
  rewrite (gasb_category_of_object_code _ Hlen).
  generalize (slice account_code 5 9) as object_code. intros object_code.
  unfold startswith.
  destruct (prefix "11" object_code) eqn:H11.
  { intros _. apply prefix_two in H11. destruct H11 as [rest ->].
    rewrite not_clearing_code; [|discriminate]. eval_prefix_rule.
    cbn. rewrite ?prefix_empty. reflexivity. }
  destruct (prefix "12" object_code && _) eqn:H12.
  { intros _. apply andb_true_iff in H12. destruct H12 as [Hp Hn].
    apply prefix_two in Hp. destruct Hp as [rest ->].
    rewrite not_clearing_code; [|discriminate]. eval_prefix_rule.
    cbn. rewrite ?prefix_empty. use_exceptions Hn. reflexivity. }
  destruct (prefix "15" object_code && _) eqn:H15.
  { intros _. apply andb_true_iff in H15. destruct H15 as [Hp Hn].
    apply prefix_two in Hp. destruct Hp as [rest ->].
    rewrite not_clearing_code; [|discriminate]. eval_prefix_rule.
    cbn. rewrite ?prefix_empty. use_exceptions Hn. reflexivity. }
  destruct (prefix "21" object_code && _) eqn:H21.
  { intros _. apply andb_true_iff in H21. destruct H21 as [Hp Hn].
    apply prefix_two in Hp. destruct Hp as [rest ->].
    rewrite not_clearing_code; [|discriminate]. eval_prefix_rule.
    cbn. rewrite ?prefix_empty. use_exceptions Hn. reflexivity. }
  destruct (prefix "25" object_code && _) eqn:H25.
  { intros _. apply andb_true_iff in H25. destruct H25 as [Hp Hn].
    apply prefix_two in Hp. destruct Hp as [rest ->].
    rewrite not_clearing_code; [|discriminate]. eval_prefix_rule.
    cbn. rewrite ?prefix_empty. use_exceptions Hn. reflexivity. }
  destruct (prefix "38" object_code && _) eqn:H38.
  { intros _. apply andb_true_iff in H38. destruct H38 as [Hp Hn].
    apply prefix_two in Hp. destruct Hp as [rest ->].
    rewrite not_clearing_code; [|discriminate]. eval_prefix_rule.
    cbn. rewrite ?prefix_empty. use_exceptions Hn. reflexivity. }
  discriminate.
Qed.

Lemma rollup_description_names_statement_line_witness :
  let gasb := get_gasb_category "1990012900000000000" in
  let rollup := get_rollup_information "1990012900000000000" gasb "1290" in
  let line :=
    AuditExport.get_statement_mapping_info "1990012900000000000" gasb "1290" "00" in
  rollup_description rollup
  = "Rolled up into " ++ AuditExport.statement_line_description line.
Proof.
  intros gasb rollup line.
  apply (rollup_description_names_statement_line "1990012900000000000" "00").
  - simpl. lia.
  - reflexivity.
Defined.

(** * Conservation of amounts in the Statement of Net Position *)

Lemma fold_left_Qplus_shift (l : list Q) : forall a,
  (fold_left Qplus l a == a + fold_left Qplus l 0)%Q.
Proof.
  induction l as [|x l IH]; intros a; simpl.
  - ring.
  - rewrite (IH (a + x)%Q), (IH (0 + x)%Q). ring.
Qed.

Lemma Qsum_cons (x : Q) (l : list Q) : (Qsum (x :: l) == x + Qsum l)%Q.
Proof.
  unfold Qsum. simpl. rewrite fold_left_Qplus_shift. ring.
Qed.

Lemma amount_of_cons (test : Row -> bool) (row : Row) (df : DataFrame) :
  (Reference.amount_of test (row :: df)
   == (if test row then current_year_actual row else 0) + Reference.amount_of test df)%Q.
Proof.
  unfold Reference.amount_of. simpl. destruct (test row); simpl.
  - apply Qsum_cons.
  - ring.
Qed.

(** A quantity that every row changes by the amount of the row when the
    row passes a test, and not at all otherwise, ends up as its initial
    value plus the amounts of the rows that pass the test. *)
Lemma fold_conserves {S : Type} (step : S -> Row -> S) (measure : S -> Q)
    (test : Row -> bool) :
  (forall st row,
      (measure (step st row)
       == measure st + (if test row then current_year_actual row else 0))%Q) ->
  forall df st,
    (measure (fold_left step df st) == measure st + Reference.amount_of test df)%Q.
Proof.
  intros Hstep. induction df as [|row df IH]; intros st; simpl.
  - unfold Reference.amount_of, Qsum. simpl. ring.
  - rewrite IH, Hstep, amount_of_cons. ring.
Qed.

Lemma no_branch_no_line (mapping : Mapping) (statement : NetPosition.Amounts)
    (row : Row) :
  startswith_any (if Nat.leb 9 (String.length (row_account_code row))
                  then slice (row_account_code row) 5 9 else "0000")
                 Spec.net_position_branches = false ->
  NetPosition.process_row mapping statement row = statement.
Proof.
  unfold NetPosition.process_row.
  destruct (lookup (row_account_code row) mapping); [|reflexivity].
  generalize (if Nat.leb 9 (String.length (row_account_code row))
              then slice (row_account_code row) 5 9 else "0000") as object_code.
  intros object_code Hnone.
  unfold Spec.net_position_branches, startswith_any in Hnone. cbn [existsb] in Hnone.
  repeat (apply orb_false_iff in Hnone;
          let H := fresh "Hb" in destruct Hnone as [H Hnone]).
  repeat match goal with
         | H : startswith object_code ?p = false |- _ => rewrite H; clear H
         end.
  case_tests; reflexivity.
Qed.

Ltac net_position_total :=
  unfold NetPosition.calculate_totals;
  cbn [NetPosition.total_assets NetPosition.total_deferred_outflows
       NetPosition.total_liabilities NetPosition.total_deferred_inflows
       NetPosition.total_net_position].

(** The effect of one row on a total of the statement. *)
Lemma net_position_row_effect (mapping : Mapping) (statement : NetPosition.Amounts)
    (row : Row) (total : NetPosition.Statement -> Q) (branches : list string) :
  In (total, branches)
     [ (NetPosition.total_assets, ["11"; "12"; "13"; "14"; "15"]);
       (NetPosition.total_deferred_outflows, ["17"]);
       (NetPosition.total_liabilities, ["21"; "25"]);
       (NetPosition.total_deferred_inflows, ["26"]);
       (NetPosition.total_net_position, ["32"; "38"; "39"]) ] ->
  (total (NetPosition.calculate_totals (NetPosition.process_row mapping statement row))
   == total (NetPosition.calculate_totals statement)
      + (if Reference.routed_to mapping branches row
         then current_year_actual row else 0))%Q.
Proof.
  intros Htotal.
  destruct (startswith_any (if Nat.leb 9 (String.length (row_account_code row))
                            then slice (row_account_code row) 5 9 else "0000")
                           Spec.net_position_branches) eqn:Hbranch.
  - unfold Reference.routed_to, NetPosition.process_row.
    destruct (lookup (row_account_code row) mapping) as [entry|];
      [|cbn [In] in Htotal; ring].
    destruct (Nat.leb 9 (String.length (row_account_code row))); [|discriminate].
    revert Hbranch.
    generalize (slice (row_account_code row) 5 9) as object_code.
    intros object_code Hbranch.
    unfold Spec.net_position_branches, startswith_any, startswith in *.
    cbn [existsb] in Hbranch.
    cbn [In] in Htotal.
    repeat (destruct Htotal as [Htotal|Htotal];
            [injection Htotal as <- <-|]); [..|destruct Htotal];
      repeat (apply orb_true_iff in Hbranch; destruct Hbranch as [Hbranch|Hbranch]);
      try discriminate;
      apply prefix_two in Hbranch; destruct Hbranch as [rest ->];
      destruct rest; cbn -[NetPosition.add NetPosition.calculate_totals Qplus];
      case_tests; net_position_total; unfold NetPosition.add;
      cbn -[Qplus]; ring.
  - rewrite (no_branch_no_line mapping statement row Hbranch).
    assert (Hrouted : Reference.routed_to mapping branches row = false).
    { unfold Reference.routed_to.
      destruct (lookup (row_account_code row) mapping); [|reflexivity].
      destruct (Nat.leb 9 (String.length (row_account_code row))); [|reflexivity].
      unfold Spec.net_position_branches, startswith_any in Hbranch.
      cbn [existsb] in Hbranch.
      repeat (apply orb_false_iff in Hbranch;
              let H := fresh "Hb" in destruct Hbranch as [H Hbranch]).
      cbn [In] in Htotal.
      repeat (destruct Htotal as [Htotal|Htotal];
              [injection Htotal as <- <-|]); [..|destruct Htotal];
        unfold startswith_any; cbn [existsb andb];
        repeat match goal with
               | H : startswith _ ?p = false |- _ => rewrite H; clear H
               end; reflexivity. }
    rewrite Hrouted. ring.
Qed.

Lemma net_position_template_totals (total : NetPosition.Statement -> Q)
    (branches : list string) :
  In (total, branches)
     [ (NetPosition.total_assets, ["11"; "12"; "13"; "14"; "15"]);
       (NetPosition.total_deferred_outflows, ["17"]);
       (NetPosition.total_liabilities, ["21"; "25"]);
       (NetPosition.total_deferred_inflows, ["26"]);
       (NetPosition.total_net_position, ["32"; "38"; "39"]) ] ->
  (total (NetPosition.calculate_totals NetPosition.template) == 0)%Q.
Proof.
  cbn [In]. intros Htotal.
  repeat (destruct Htotal as [Htotal|Htotal]; [injection Htotal as <- <-|]);
    [..|destruct Htotal]; reflexivity.
Qed.


(** * Conservation of amounts in the Statement of Activities *)

Ltac activities_total :=
  unfold Activities.calculate_totals, Activities.programs, Activities.revenues, Qsum;
  cbn [Activities.total_governmental Activities.total_general_revenues
       Activities.row_expenses Activities.row_charges_for_services
       Activities.row_operating_grants Activities.row_net_expense_revenue
       map fold_left];
  unfold Activities.add; cbn -[Qplus Qminus].

Lemma activities_add_other (l l' : Activities.leaf) (amount : Q)
    (statement : Activities.Amounts) :
  l <> l' -> Activities.add l amount statement l' = statement l'.
Proof.
  intros Hne. unfold Activities.add.
  destruct (Activities.leaf_eq_dec l l'); [contradiction | reflexivity].
Qed.

Ltac activities_untouched :=
  unfold Activities.calculate_totals, Activities.programs, Activities.revenues, Qsum;
  cbn [Activities.total_governmental Activities.total_general_revenues
       Activities.row_expenses Activities.row_charges_for_services
       Activities.row_operating_grants Activities.row_net_expense_revenue
       map fold_left];
  rewrite ?activities_add_other by discriminate;
  symmetry; apply Qplus_0_r.

(** The effect of one row on the expenses, on the program revenues and on
    the general revenues of the statement. *)
Lemma activities_row_effect (mapping : Mapping) (statement : Activities.Amounts)
    (row : Row) (total : Activities.Statement -> Q) (categories : list string) :
  In (total, categories)
     [ (fun s => Activities.row_expenses (Activities.total_governmental s),
        ["program_expenses"; "general_expenses"]);
       (fun s => (Activities.row_charges_for_services (Activities.total_governmental s)
                  + Activities.row_operating_grants (Activities.total_governmental s))%Q,
        ["program_revenues"]);
       (Activities.total_general_revenues, ["general_revenues"]) ] ->
  (total (Activities.calculate_totals (Activities.process_row mapping statement row))
   == total (Activities.calculate_totals statement)
      + (if Reference.with_category mapping categories row
         then current_year_actual row else 0))%Q.
Proof.
  intros Htotal. unfold Reference.with_category, Activities.process_row.
  destruct (lookup (row_account_code row) mapping) as [entry|];
    [|ring].
  generalize (if Nat.leb 5 (String.length (row_account_code row))
              then slice (row_account_code row) 3 5 else "00") as function_code.
  intros function_code.
  cbn [In] in Htotal.
  destruct (String.eqb_spec (gasb_category entry) "program_expenses") as [->|Hpe].
  { generalize (Activities.expense_program function_code) as p. intros p.
    cbn -[Activities.add Activities.calculate_totals Qplus contains lower].
    repeat (destruct Htotal as [Htotal|Htotal]; [injection Htotal as <- <-|]);
      [..|destruct Htotal];
      [destruct p; activities_total; ring | activities_untouched..]. }
  destruct (String.eqb_spec (gasb_category entry) "general_expenses") as [->|Hge].
  { generalize (Activities.expense_program function_code) as p. intros p.
    cbn -[Activities.add Activities.calculate_totals Qplus contains lower].
    repeat (destruct Htotal as [Htotal|Htotal]; [injection Htotal as <- <-|]);
      [..|destruct Htotal];
      [destruct p; activities_total; ring | activities_untouched..]. }
  destruct (String.eqb_spec (gasb_category entry) "program_revenues") as [->|Hpr].
  { repeat (destruct Htotal as [Htotal|Htotal]; [injection Htotal as <- <-|]);
      [..|destruct Htotal];
      cbn -[Activities.add Activities.calculate_totals Qplus];
      case_tests; activities_total; ring. }
  destruct (String.eqb_spec (gasb_category entry) "general_revenues") as [->|Hgr].
  { repeat (destruct Htotal as [Htotal|Htotal]; [injection Htotal as <- <-|]);
      [..|destruct Htotal];
      cbn -[Activities.add Activities.calculate_totals Qplus contains lower];
      repeat match goal with
             | |- context [if ?b then Activities.add _ _ _ else _] => destruct b
             end;
      activities_total; ring. }
  repeat (destruct Htotal as [Htotal|Htotal]; [injection Htotal as <- <-|]);
    [..|destruct Htotal]; unfold mem; cbn [existsb];
    repeat match goal with
           | H : ?x <> ?c |- context [String.eqb ?x ?c] =>
             rewrite (proj2 (String.eqb_neq x c) H)
           end; cbn [orb]; ring.
Qed.

Lemma activities_net_expense (statement : Activities.Amounts) :
  let totals := Activities.total_governmental (Activities.calculate_totals statement) in
  (Activities.row_net_expense_revenue totals
   == Activities.row_expenses totals
      - (Activities.row_charges_for_services totals
         + Activities.row_operating_grants totals))%Q.
Proof.
  cbv zeta.
  unfold Activities.calculate_totals, Activities.programs, Qsum.
  cbn [Activities.total_governmental Activities.row_expenses
       Activities.row_charges_for_services Activities.row_operating_grants
       Activities.row_net_expense_revenue map fold_left].
  ring.
Qed.


(** * The governmental-funds statements *)

Lemma merge_left_fund_keys (df : DataFrame) (mapping : Mapping) (r : VRow) :
  (forall kv, In kv mapping -> fund_category (snd kv) <> "general_fund") ->
  In r (merge_left df mapping) -> v_fund_key r <> general_fund.
Proof.
  intros Hfunds Hin. unfold merge_left in Hin.
  apply in_flat_map in Hin. destruct Hin as [row [_ Hin]].
  destruct (filter _ (map snd mapping)) as [|e matches] eqn:Hmatches.
  - destruct Hin as [<-|[]]. discriminate.
  - apply in_map_iff in Hin. destruct Hin as [e' [<- He']].
    rewrite <- Hmatches in He'. apply filter_In in He'. destruct He' as [He' _].
    apply in_map_iff in He'. destruct He' as [kv [<- Hkv]].
    apply Hfunds in Hkv. apply String.eqb_neq in Hkv.
    unfold make_vrow, to_fund_key. cbn [v_fund_key]. rewrite Hkv. discriminate.
Qed.



Lemma length_filter_list_sum {A : Type} (f : A -> bool) (l : list A) :
  length (filter f l) = list_sum (map (fun x => if f x then 1 else 0) l).
Proof.
  induction l as [|x l IH]; simpl; [reflexivity|].
  destruct (f x); simpl; now rewrite IH.
Qed.

Ltac split_on_codes :=
  repeat match goal with
         | |- context [String.eqb ?x ?c] =>
           is_var x; destruct (String.eqb_spec x c) as [->|?];
           [vm_compute; reflexivity|]
         end.

(** The number of [add_sum] calls of the balance sheet whose mask a row
    satisfies. *)
Lemma funds_balance_hit_count (r : VRow) :
  list_sum (map (fun call : (VRow -> bool) * FundsBalance.leaf =>
                 if fst call r then 1 else 0) FundsBalance.calls) <= 1.
Proof.
  destruct r as [code oc fc amount key].
  unfold FundsBalance.calls, oc_startswith, oc_eq, oc_isin, startswith, mem.
  cbn [object_code map list_sum fst snd]. apply Nat.leb_le.
  destruct oc as [|a [|b rest]].
  - reflexivity.
  - destruct a as [[] [] [] [] [] [] [] []]; vm_compute; reflexivity.
  - destruct a as [[] [] [] [] [] [] [] []]; try (vm_compute; reflexivity);
      destruct b as [[] [] [] [] [] [] [] []]; try (vm_compute; reflexivity);
      cbn; rewrite ?prefix_empty; split_on_codes; reflexivity.
Qed.

(** The number of [add_sum] calls of the statement of revenues and
    expenditures whose mask a row satisfies. *)
Lemma funds_revenues_expenditures_hit_count (r : VRow) :
  list_sum (map (fun call : (VRow -> bool) * FundsRevExp.leaf =>
                 if fst call r then 1 else 0) FundsRevExp.calls) <= 1.
Proof.
  destruct r as [code oc fc amount key].
  unfold FundsRevExp.calls, FundsRevExp.exp_map, FundsRevExp.oc_match_57_58_59,
    oc_startswith, oc_eq, oc_isin, fc_eq, fc_isin, startswith_any, startswith, mem.
  cbn [object_code function_code map app fst snd list_sum existsb]. apply Nat.leb_le.
  destruct oc as [|a rest]; [reflexivity|].
  destruct a as [[] [] [] [] [] [] [] []]; try (vm_compute; reflexivity);
    first
      [ cbn; rewrite ?prefix_empty; rewrite ?orb_true_r; split_on_codes; reflexivity
      | destruct rest as [|b rest]; [vm_compute; reflexivity|];
        destruct b as [[] [] [] [] [] [] [] []]; try (vm_compute; reflexivity);
        cbn; rewrite ?prefix_empty; split_on_codes; reflexivity ].
Qed.

(** X16. No double counting in the governmental-funds balance sheet: a
    row satisfies the mask of at most one [add_sum] call, so its amount is
    added to at most one line item. *)
Theorem funds_balance_masks_exclusive (r : VRow) :
  length (filter (fun call => fst call r) FundsBalance.calls) <= 1.
Proof.
  rewrite length_filter_list_sum. apply funds_balance_hit_count.
Qed.

(** X17. No double counting in the statement of revenues and
    expenditures: a row satisfies the mask of at most one [add_sum] call,
    so its amount is added to at most one line item. *)
Theorem funds_revenues_expenditures_masks_exclusive (r : VRow) :
  length (filter (fun call => fst call r) FundsRevExp.calls) <= 1.
Proof.
  rewrite length_filter_list_sum. apply funds_revenues_expenditures_hit_count.
Qed.

(** ** Line items of the funds statements in closed form *)

Lemma Qsum_nil : (Qsum [] == 0)%Q.
Proof. reflexivity. Qed.

Lemma vsum_cons (test : VRow -> bool) (r : VRow) (dfv : list VRow) :
  (Reference.vsum test (r :: dfv)
   == (if test r then v_amount r else 0) + Reference.vsum test dfv)%Q.
Proof.
  unfold Reference.vsum. simpl. destruct (test r); simpl.
  - apply Qsum_cons.
  - ring.
Qed.

Lemma filter_filter_and {A : Type} (f g : A -> bool) (l : list A) :
  filter f (filter g l) = filter (fun x => g x && f x) l.
Proof.
  induction l as [|x l IH]; simpl; [reflexivity|].
  destruct (g x); simpl; [destruct (f x); now rewrite IH | assumption].
Qed.

Section ClosedForm.
Variable leaf : Type.
Variable leaf_eq_dec : forall a b : leaf, {a = b} + {a <> b}.

Lemma add_at (target l : leaf) (fk k : fund_key) (val : Q) (statement : Amounts leaf) :
  (add leaf leaf_eq_dec target fk val statement l k
   == statement l k
      + (if leaf_eq_dec target l
         then if fund_key_eq_dec fk k then val else 0
         else 0))%Q.
Proof.
  unfold add. destruct (leaf_eq_dec target l); [|ring].
  destruct (fund_key_eq_dec fk k); ring.
Qed.

(** What one [add_sum] call adds at a leaf and column. *)
Lemma add_sum_at (dfv : list VRow) (mask : VRow -> bool) (target l : leaf)
    (k : fund_key) (statement : Amounts leaf) :
  (add_sum leaf leaf_eq_dec dfv mask target statement l k
   == statement l k
      + (if leaf_eq_dec target l
         then Reference.vsum (fun r => mask r && Reference.in_column k r) dfv
         else 0))%Q.
Proof.
  unfold add_sum. cbn [fold_left].
  repeat rewrite filter_filter_and.
  assert (Hgroup : forall fk st,
             ((match filter (fun r => mask r &&
                                      (if fund_key_eq_dec (v_fund_key r) fk
                                       then true else false)) dfv with
               | [] => st
               | group => add leaf leaf_eq_dec target fk (Qsum (map v_amount group)) st
               end) l k
              == st l k
                 + (if leaf_eq_dec target l
                    then if fund_key_eq_dec fk k
                         then Reference.vsum
                                (fun r => mask r && Reference.in_column fk r) dfv
                         else 0
                    else 0))%Q).
  { intros fk st. unfold Reference.vsum, Reference.in_column.
    destruct (filter _ dfv) as [|r group].
    - destruct (leaf_eq_dec target l); [|ring].
      destruct (fund_key_eq_dec fk k); [rewrite Qsum_nil|]; ring.
    - apply add_at. }
  rewrite (Hgroup non_major_funds), (Hgroup general_fund).
  destruct (leaf_eq_dec target l); [|ring].
  destruct k; cbn; ring.
Qed.

(** What a sequence of [add_sum] calls adds at a leaf and column. *)
Lemma add_sums_at (dfv : list VRow) (calls : list ((VRow -> bool) * leaf))
    (l : leaf) (k : fund_key) : forall statement,
  (add_sums leaf leaf_eq_dec dfv calls statement l k
   == statement l k
      + Qsum (map (fun call =>
                     if leaf_eq_dec (snd call) l
                     then Reference.vsum
                            (fun r => fst call r && Reference.in_column k r) dfv
                     else 0)
                  calls))%Q.
Proof.
  unfold add_sums.
  induction calls as [|call calls IH]; intros statement; simpl.
  - rewrite Qsum_nil. ring.
  - rewrite IH, add_sum_at, Qsum_cons. ring.
Qed.

(** The calls individually, for one row. *)
Lemma hits_of_row (calls : list ((VRow -> bool) * leaf)) (l : leaf) (k : fund_key)
    (r : VRow) :
  length (filter (fun call => fst call r) calls) <= 1 ->
  (Qsum (map (fun call =>
                if leaf_eq_dec (snd call) l
                then if fst call r && Reference.in_column k r then v_amount r else 0
                else 0)
             calls)
   == (if Reference.in_column k r && Reference.hit leaf_eq_dec calls l r
       then v_amount r else 0))%Q.
Proof.
  unfold Reference.hit.
  induction calls as [|call calls IH]; intros Hone.
  - simpl. rewrite Qsum_nil. now rewrite andb_false_r.
  - cbn [map existsb filter] in *. rewrite Qsum_cons.
    destruct (fst call r) eqn:Hmask; cbn [length] in Hone.
    + assert (Hrest : forall c, In c calls -> fst c r = false).
      { apply filter_nil_iff.
        destruct (filter _ calls); [reflexivity | simpl in Hone; lia]. }
      assert (Hzero : forall l0,
                 existsb (fun c => (if leaf_eq_dec (snd c) l0 then true else false)
                                   && fst c r) calls = false).
      { intros l0. apply not_true_is_false. intros Hex.
        apply existsb_exists in Hex. destruct Hex as [c [Hc Hhit]].
        rewrite (Hrest c Hc), andb_false_r in Hhit. discriminate. }
      rewrite IH.
      * rewrite Hzero. rewrite andb_false_r, orb_false_r, andb_true_r.
        destruct (leaf_eq_dec (snd call) l), (Reference.in_column k r); cbn; ring.
      * lia.
    + rewrite IH; [|exact Hone].
      cbn [andb orb]. rewrite andb_false_r. cbn [orb].
      destruct (leaf_eq_dec (snd call) l); ring.
Qed.

Lemma Qsum_map_plus {A : Type} (f g : A -> Q) (l : list A) :
  (Qsum (map (fun x => f x + g x) l) == Qsum (map f l) + Qsum (map g l))%Q.
Proof.
  induction l as [|x l IH]; simpl.
  - repeat rewrite Qsum_nil. ring.
  - repeat rewrite Qsum_cons. rewrite IH. ring.
Qed.

Lemma Qsum_map_ext {A : Type} (f g : A -> Q) (l : list A) :
  (forall x, In x l -> (f x == g x)%Q) -> (Qsum (map f l) == Qsum (map g l))%Q.
Proof.
  induction l as [|x l IH]; intros Hext; simpl.
  - reflexivity.
  - repeat rewrite Qsum_cons. rewrite IH, (Hext x).
    + reflexivity.
    + now left.
    + intros y Hy. apply Hext. now right.
Qed.

Lemma calls_of_leaf_nil (calls : list ((VRow -> bool) * leaf)) (l : leaf)
    (k : fund_key) :
  (Qsum (map (fun call =>
                if leaf_eq_dec (snd call) l
                then Reference.vsum
                       (fun r => fst call r && Reference.in_column k r) []
                else 0)
             calls) == 0)%Q.
Proof.
  induction calls as [|call calls IHc]; cbn [map]; [reflexivity|].
  rewrite Qsum_cons, IHc.
  destruct (leaf_eq_dec (snd call) l); unfold Reference.vsum, Qsum; simpl; ring.
Qed.

(** With exclusive masks, the calls that target a leaf add up to the sum
    of the rows that one of them selects. *)
Lemma calls_of_leaf (dfv : list VRow) (calls : list ((VRow -> bool) * leaf))
    (l : leaf) (k : fund_key) :
  (forall r, length (filter (fun call => fst call r) calls) <= 1) ->
  (Qsum (map (fun call =>
                if leaf_eq_dec (snd call) l
                then Reference.vsum
                       (fun r => fst call r && Reference.in_column k r) dfv
                else 0)
             calls)
   == Reference.vsum
        (fun r => Reference.in_column k r && Reference.hit leaf_eq_dec calls l r)
        dfv)%Q.
Proof.
  intros Hone. induction dfv as [|r dfv IH].
  - rewrite calls_of_leaf_nil. reflexivity.
  - rewrite vsum_cons, <- IH, <- (hits_of_row calls l k r (Hone r)).
    rewrite <- Qsum_map_plus. apply Qsum_map_ext. intros call _.
    destruct (leaf_eq_dec (snd call) l); [|ring].
    apply vsum_cons.
Qed.

End ClosedForm.

Arguments add_sums_at {leaf}.
Arguments calls_of_leaf {leaf}.


